(** * auto_annotate: the annotation-derivation engine

    A shallow embedding of [auto_annotate.py]: the geometry normaliser
    ([rectify_bbox], [normalize_bbox], [normalize_point]), the gaze
    classifier ([analyze_gaze]) and the annotation assembler
    ([build_annotations]).

    Numbers.  The functions are embedded twice.  In section [Engine]
    Python floats are idealised as exact rationals ([Q]); the image width
    and height are integers ([Z]).  Division raises [ZeroDivisionError]
    on a zero divisor, as Python's does.  A value [a ** 0.5] is never
    materialised: the program only compares such values and prints one,
    so it is represented by its radicand [a] and compared on squares
    (section "Square roots" below); [sqrt_ltb_real], [sqrt_gtb_real] and
    [round_sqrt_nearest] relate this to the real square root.  This
    embedding carries the properties that rounding leaves alone: shapes,
    ranges, the order of the records, the labels decided by comparing an
    input with a constant.  In module [B64] a float is a binary64 number
    and a field of an item is any JSON value; it carries the properties of
    the distance thresholds, of the printed scale and of the exceptions,
    which a rounding, an overflow or a value that is not finite decides.

    Exceptions.  A function that may raise returns a [result].

    Collaborators.  The file system ([os.walk], [os.path], PIL) and the
    labeling session are parameters of the functions that use them
    ([find_image_file], [load_available_images],
    [resolve_image_on_disk], [main]); printing and pacing are left
    out. *)

From Stdlib Require Import QArith ZArith List String Ascii Bool Lia Lqa.
From Stdlib Require Import Qminmax DecimalString.
From Stdlib Require Import Reals Qreals Lra.
From Stdlib Require Floats.
Import ListNotations.

Open Scope string_scope.
Open Scope Q_scope.

(** ** Exceptions *)

Inductive exn : Type :=
| TypeError
| ValueError
| ZeroDivisionError
| FileNotFoundError.

Inductive result (A : Type) : Type :=
| Ok (a : A)
| Raise (e : exn).

Arguments Ok {A} a.
Arguments Raise {A} e.

Definition bind {A B : Type} (m : result A) (k : A -> result B) : result B :=
  match m with
  | Ok a => k a
  | Raise e => Raise e
  end.

Notation "x <- m ;; k" := (bind m (fun x => k))
  (at level 61, m at next level, right associativity).
Notation "' pat <- m ;; k" := (bind m (fun x => match x with pat => k end))
  (at level 61, pat pattern, m at next level, right associativity).

(** [[f(v) for v in l]]: left to right, the first exception wins. *)
Fixpoint mapM {A B : Type} (f : A -> result B) (l : list A) : result (list B) :=
  match l with
  | [] => Ok []
  | a :: l' => b <- f a ;; bs <- mapM f l' ;; Ok (b :: bs)
  end.

Definition raises {A : Type} (m : result A) : Prop :=
  exists e, m = Raise e.

(** ** Values read from the JSON manifest *)

#[local] Unset Elimination Schemes.
Inductive pyval : Type :=
| PNone
| PBool (b : bool)
| PNum (q : Q)
| PStr (s : string)
| PList (l : list pyval)
| PObj (l : list (string * pyval)).
#[local] Set Elimination Schemes.

(** A box or point field of an item: [None] when the key is absent or
    null, otherwise the list of its components.  The components are
    arbitrary JSON values. *)
Definition pyseq : Type := option (list pyval).

(** [not v] for such a field: [None] and [[]] are falsy. *)
Definition py_not (v : pyseq) : bool :=
  match v with
  | None => true
  | Some [] => true
  | Some (_ :: _) => false
  end.

(** [len(v)], read only where [not v] is false. *)
Definition py_len (v : pyseq) : nat :=
  match v with
  | None => 0
  | Some l => List.length l
  end.

(** [v[:n]] *)
Definition py_slice (v : pyseq) (n : nat) : list pyval :=
  match v with
  | None => []
  | Some l => firstn n l
  end.

(** ** Comparisons and division on numbers *)

Definition Qltb (x y : Q) : bool := negb (Qle_bool y x).
Definition Qgtb (x y : Q) : bool := Qltb y x.
Definition Qgeb (x y : Q) : bool := Qle_bool y x.

Infix "<?" := Qltb (at level 70, no associativity) : Q_scope.
Infix ">?" := Qgtb (at level 70, no associativity) : Q_scope.
Infix ">=?" := Qgeb (at level 70, no associativity) : Q_scope.

(** [x / y] *)
Definition py_div (x y : Q) : result Q :=
  if Qeq_bool y 0 then Raise ZeroDivisionError else Ok (x / y).

(** ** Square roots

    [sqrt_ltb a t] decides [a ** 0.5 < t] and [sqrt_gtb a t] decides
    [a ** 0.5 > t], for a radicand [a >= 0]. *)

Definition sqrt_ltb (a t : Q) : bool := (0 <? t) && (a <? t * t).
Definition sqrt_gtb (a t : Q) : bool := (t <? 0) || (t * t <? a).

(** ** Decimal output: [f"{v:.2f}"] for [v = a ** 0.5 / d], [d <> 0].

    The exact value is rounded to the nearest hundredth, ties to even. *)

Definition round_sqrt (t : Q) : Z :=
  let p := Qnum t in
  let q := Zpos (Qden t) in
  let k := Z.sqrt (p / q) in
  match (4 * p ?= (2 * k + 1) * (2 * k + 1) * q)%Z with
  | Gt => (k + 1)%Z
  | Eq => if Z.even k then k else (k + 1)%Z
  | Lt => k
  end.

Definition digit (d : Z) : ascii := ascii_of_nat (48 + Z.to_nat d).

Definition format_2f_sqrt (a d : Q) : string :=
  let n := round_sqrt (10000 * a / (d * d)) in
  (if d <? 0 then "-" else EmptyString) ++
  NilZero.string_of_uint (N.to_uint (Z.to_N (n / 100))) ++
  String "."%char (String (digit ((n mod 100) / 10))
                     (String (digit (n mod 10)) EmptyString)).

(** * The engine on binary64

    The geometry normaliser, the gaze classifier and the annotation
    assembler once more, with a Python float as a binary64 number
    ([PrimFloat.float]): what the distance thresholds, the printed scale
    and the exceptions do depends on how the operations round, overflow
    and treat values that are not finite.

    Numbers.  [+], [-], [*], [/] and the comparisons are the IEEE 754
    operations; [/] raises [ZeroDivisionError] on a zero divisor.  An
    [int] that meets a float in arithmetic is converted first
    ([int_to_float], [OverflowError] beyond the float range); an [int]
    that is compared with a float is compared exactly.  [x ** y] goes to
    the platform's [pow], which the language does not fix to the last
    bit, so it is a parameter ([pow_2], [pow_half]): it gives a float or
    a complex number, or raises.

    Values.  A field of an item is any JSON value ([pyval]); [len] and
    slicing raise on the values that have none. *)

Module B64.

Import PrimFloat SpecFloat FloatOps.
#[local] Open Scope float_scope.
#[local] Set Warnings "-inexact-float".

(** ** Exceptions *)

Inductive exn : Type :=
| TypeError
| ValueError
| ZeroDivisionError
| OverflowError
| KeyError
| AttributeError
| FileNotFoundError
| OSError.

Inductive result (A : Type) : Type :=
| Ok (a : A)
| Raise (e : exn).

Arguments Ok {A} a.
Arguments Raise {A} e.

Definition bind {A B : Type} (m : result A) (k : A -> result B) : result B :=
  match m with
  | Ok a => k a
  | Raise e => Raise e
  end.

Declare Scope b64_scope.
#[local] Open Scope b64_scope.

Notation "x <- m ;; k" := (bind m (fun x => k))
  (at level 61, m at next level, right associativity) : b64_scope.
Notation "' pat <- m ;; k" :=
  (bind m (fun x => match x with pat => k end))
  (at level 61, pat pattern, m at next level, right associativity)
  : b64_scope.

Fixpoint mapM {A B : Type} (f : A -> result B) (l : list A) : result (list B) :=
  match l with
  | [] => Ok []
  | a :: l' => b <- f a ;; bs <- mapM f l' ;; Ok (b :: bs)
  end.

(** ** Values read from the JSON manifest

    [json.load] gives [int] for an integer literal and [float] for any
    other number, [NaN] and [Infinity] included; the pairs of a [dict]
    have distinct keys. *)

#[local] Unset Elimination Schemes.
Inductive pyval : Type :=
| PNone
| PBool (b : bool)
| PInt (z : Z)
| PFloat (x : float)
| PStr (s : string)
| PList (l : list pyval)
| PObj (l : list (string * pyval)).
#[local] Set Elimination Schemes.

(** [not v] *)
Definition py_not (v : pyval) : bool :=
  match v with
  | PNone => true
  | PBool b => negb b
  | PInt z => (z =? 0)%Z
  | PFloat x => x =? 0
  | PStr s => (String.length s =? 0)%nat
  | PList l => (List.length l =? 0)%nat
  | PObj l => (List.length l =? 0)%nat
  end.

(** [len(v)] *)
Definition py_len (v : pyval) : result nat :=
  match v with
  | PStr s => Ok (String.length s)
  | PList l => Ok (List.length l)
  | PObj l => Ok (List.length l)
  | _ => Raise TypeError
  end.

(** The characters of a [str], each a [str] of length one. *)
Fixpoint chars (s : string) : list pyval :=
  match s with
  | EmptyString => []
  | String c s' => PStr (String c EmptyString) :: chars s'
  end.

(** A number that [**] may produce. *)
Inductive pynum : Type :=
| Real (x : float)
| Complex.

(** ** The interpreter

    What the functions take from the interpreter and its platform:
    - the exception of slicing a [dict], [TypeError] before Python 3.12
      and [KeyError] from it;
    - [x ** 2] and [x ** 0.5] on a float [x], which go to the platform's
      [pow]: [x ** 2] is a float and [x ** 0.5] a float or, for a
      negative [x], a complex number; either raises [OverflowError] when
      the result is out of range;
    - [float()] on a [str]: the value, or [None] where it raises
      [ValueError]. *)
Record Platform : Type := mkPlatform {
  dict_slice_error : exn;
  pow_2 : float -> result float;
  pow_half : float -> result pynum;
  float_of_str : string -> option float
}.

Section Model.

Variable P : Platform.

(** The items of [v[:n]] *)
Definition py_slice (v : pyval) (n : nat) : result (list pyval) :=
  match v with
  | PStr s => Ok (firstn n (chars s))
  | PList l => Ok (firstn n l)
  | PObj _ => Raise (dict_slice_error P)
  | _ => Raise TypeError
  end.

(** ** Numbers *)

(** The float nearest to an [int], ties to even. *)
Definition int_to_float (z : Z) : result float :=
  match binary_normalize prec emax z 0 false with
  | S754_infinity _ => Raise OverflowError
  | x => Ok (SF2Prim x)
  end.

(** The exact order between a float and an [int]; [None] for a NaN. *)
Definition compare_int (x : float) (z : Z) : option comparison :=
  match Prim2SF x with
  | S754_nan => None
  | S754_infinity s => Some (if s then Lt else Gt)
  | S754_zero _ => Some (0 ?= z)%Z
  | S754_finite s m e =>
      let v := if s then Zneg m else Zpos m in
      Some (match e with
            | Z0 => v ?= z
            | Zpos p => v * 2 ^ Zpos p ?= z
            | Zneg p => v ?= z * 2 ^ Zpos p
            end)%Z
  end.

(** [x > z] for an [int] [z] *)
Definition gt_int (x : float) (z : Z) : bool :=
  match compare_int x z with
  | Some Gt => true
  | _ => false
  end.

(** [x / y] *)
Definition py_div (x y : float) : result float :=
  if y =? 0 then Raise ZeroDivisionError else Ok (x / y).

(** [x / z] for an [int] [z] *)
Definition py_div_int (x : float) (z : Z) : result float :=
  y <- int_to_float z ;; py_div x y.

(** [min(a, b)] and [max(a, b)]: the first argument unless the second is
    strictly beyond it. *)
Definition py_min (a b : float) : float := if b <? a then b else a.
Definition py_max (a b : float) : float := if a <? b then b else a.

(** ** Decimal output: [f"{v:.2f}"]

    The exact value of the float, rounded to the nearest hundredth, ties
    to even. *)

(** [m * 2 ^ e] rounded to the nearest integer. *)
Definition round_half_even (m e : Z) : Z :=
  match e with
  | Zneg p =>
      let d := (2 ^ Zpos p)%Z in
      let q := (m / d)%Z in
      match (2 * (m mod d) ?= d)%Z with
      | Gt => (q + 1)%Z
      | Eq => if Z.even q then q else (q + 1)%Z
      | Lt => q
      end
  | _ => (m * 2 ^ e)%Z
  end.

Definition format_2f (v : float) : string :=
  match Prim2SF v with
  | S754_nan => "nan"
  | S754_infinity s => if s then "-inf" else "inf"
  | S754_zero s => (if s then "-" else EmptyString) ++ "0.00"
  | S754_finite s m e =>
      let n := round_half_even (100 * Zpos m) e in
      (if s then "-" else EmptyString) ++
      NilZero.string_of_uint (N.to_uint (Z.to_N (n / 100))) ++
      String "."%char (String (digit ((n mod 100) / 10))
                         (String (digit (n mod 10)) EmptyString))
  end.

(** [float(v)] *)
Definition py_float (v : pyval) : result float :=
  match v with
  | PNone => Raise TypeError
  | PBool b => Ok (if b then 1 else 0)
  | PInt z => int_to_float z
  | PFloat x => Ok x
  | PStr s =>
      match float_of_str P s with
      | Some x => Ok x
      | None => Raise ValueError
      end
  | PList _ => Raise TypeError
  | PObj _ => Raise TypeError
  end.

(** ** Geometry normaliser *)

Definition rectify_bbox (x y : float) (w h : option float)
  : float * float * option float * option float :=
  match w, h with
  | Some w0, Some h0 =>
      let '(x, w0) := if w0 <? 0 then (x + w0, - w0) else (x, w0) in
      let '(y, h0) := if h0 <? 0 then (y + h0, - h0) else (y, h0) in
      (x, y, Some w0, Some h0)
  | _, _ => (x, y, w, h)
  end.

Definition BBox : Type := (float * float * float * float)%type.
Definition Point : Type := (float * float)%type.

Definition default_bbox : BBox := (0.25, 0.25, 0.5, 0.5).
Definition default_point : Point := (0.5, 0.5).

(** [max(0.0, min(1.0, v))] *)
Definition clamp01 (v : float) : float := py_max 0 (py_min 1 v).

Definition normalize_bbox (bbox : pyval) (is_normalized : bool)
    (width height : Z) : result BBox :=
  if py_not bbox then Ok default_bbox
  else
    n <- py_len bbox ;;
    if (n <? 4)%nat then Ok default_bbox
    else
      items <- py_slice bbox 4 ;;
      vs <- mapM py_float items ;;
      match vs with
      | [x; y; w; h] =>
          match rectify_bbox x y (Some w) (Some h) with
          | (x, y, Some w, Some h) =>
              '(x, y, w, h) <-
                (if negb is_normalized then
                   x <- py_div_int x width ;;
                   y <- py_div_int y height ;;
                   w <- py_div_int w width ;;
                   h <- py_div_int h height ;;
                   Ok (x, y, w, h)
                 else Ok (x, y, w, h)) ;;
              Ok (clamp01 x, clamp01 y, clamp01 w, clamp01 h)
          | _ => Raise TypeError
          end
      | _ => Raise ValueError
      end.

Definition normalize_point (pt : pyval) (is_normalized : bool)
    (width height : Z) : result Point :=
  if py_not pt then Ok default_point
  else
    n <- py_len pt ;;
    if (n <? 2)%nat then Ok default_point
    else
      items <- py_slice pt 2 ;;
      match items with
      | [px; py] =>
          match (px <- py_float px ;; py <- py_float py ;; Ok (px, py)) with
          | Raise _ => Ok default_point
          | Ok (px, py) =>
              if is_normalized then Ok (px, py)
              else
                px_norm <- (if 0 <=? px then py_div_int px width
                            else Ok (-0.05)) ;;
                py_norm <- (if 0 <=? py then py_div_int py height
                            else Ok (-0.05)) ;;
                Ok (px_norm, py_norm)
          end
      | _ => Raise ValueError
      end.

(** ** Gaze classifier *)

Record Analysis : Type := mkAnalysis {
  a_target_type : string;
  a_farther_closer : string;
  a_scale : string;
  a_object_detection : string;
  a_focal_point : string
}.

Definition analyze_gaze (bbox : BBox) (gaze : Point) (width height : Z)
  : result Analysis :=
  let '(bx, by_, bw, bh) := bbox in
  let '(gx, gy) := gaze in
  width' <- int_to_float width ;;
  let gazeX := gx * width' in
  height' <- int_to_float height ;;
  let gazeY := gy * height' in
  let faceX := bx * width' in
  let faceY := by_ * height' in
  let faceW := bw * width' in
  let faceH := bh * height' in
  (* Target type *)
  targetType <-
    (if (gazeX <? 0) || gt_int gazeX width
        || (gazeY <? 0) || gt_int gazeY height
     then Ok "out-of-frame target"
     else
       let faceCenterX := faceX + faceW / 2 in
       let faceCenterY := faceY + faceH / 2 in
       a <- pow_2 P (gazeX - faceCenterX) ;;
       b <- pow_2 P (gazeY - faceCenterY) ;;
       gazeDistance <- pow_half P (a + b) ;;
       (* the comparison: a complex operand has no order *)
       match gazeDistance with
       | Real gazeDistance =>
           if gazeDistance <? py_min faceW faceH * 0.3 then Ok "Eye-contact"
           else Ok "in-frame target"
       | Complex => Raise TypeError
       end) ;;
  (* Farther/closer/equal *)
  a <- pow_2 P (gazeX - (faceX + faceW / 2)) ;;
  b <- pow_2 P (gazeY - (faceY + faceH / 2)) ;;
  gazeDistanceFromFace <- pow_half P (a + b) ;;
  faceSize <- pow_half P (faceW * faceH) ;;
  (* the comparison: a complex operand has no order *)
  '(gazeDistanceFromFace, faceSize) <-
    match gazeDistanceFromFace, faceSize with
    | Real d, Real s => Ok (d, s)
    | _, _ => Raise TypeError
    end ;;
  let gazePosition :=
    if faceSize * 2 <? gazeDistanceFromFace then "farther"
    else if gazeDistanceFromFace <? faceSize * 0.5 then "closer"
    else "equal" in
  (* Scale estimate in meters *)
  let estimatedFaceWidthMeters := 0.2 in
  pixelsPerMeter <-
    (if 0 <? estimatedFaceWidthMeters
     then py_div faceW estimatedFaceWidthMeters
     else Ok 1) ;;
  gazeDistanceMeters <- py_div gazeDistanceFromFace pixelsPerMeter ;;
  let scale := format_2f gazeDistanceMeters in
  (* Object detection heuristic *)
  let objectDetection :=
    if (targetType =? "Eye-contact")%string then "Camera/Viewer"
    else if gy <? 0.3 then "Object above (ceiling, sky, etc.)"
    else if 0.7 <? gy then "Object below (floor, ground, etc.)"
    else if gx <? 0.3 then "Object on left side"
    else if 0.7 <? gx then "Object on right side"
    else "Central object" in
  (* Focal point (region) classification *)
  let focal :=
    if (gx <? 0) || (1 <? gx) || (gy <? 0) || (1 <? gy) then
      let horiz :=
        if gx <? 0 then "left" else if 1 <? gx then "right" else "center" in
      let vert :=
        if gy <? 0 then "top" else if 1 <? gy then "bottom" else "middle" in
      if ((horiz =? "center") && (vert =? "middle"))%string then "out-of-frame"
      else if (vert =? "middle")%string then "out-of-frame " ++ horiz
      else if (horiz =? "center")%string then "out-of-frame " ++ vert
      else "out-of-frame " ++ vert ++ "-" ++ horiz
    else
      let horiz :=
        if gx <? 0.3333 then "left"
        else if 0.6667 <? gx then "right" else "center" in
      let vert :=
        if gy <? 0.3333 then "top"
        else if 0.6667 <? gy then "bottom" else "middle" in
      if ((horiz =? "center") && (vert =? "middle"))%string then "center"
      else if (vert =? "middle")%string then horiz
      else if (horiz =? "center")%string then vert
      else vert ++ "-" ++ horiz in
  Ok (mkAnalysis targetType gazePosition scale objectDetection focal).

(** ** Annotation assembler *)

(** An item of the manifest: a field that is absent reads as [None]. *)
Record Item : Type := mkItem {
  item_path : string;
  item_bbox : pyval;
  item_eye : pyval;
  item_gaze : pyval;
  item_gazes : pyval
}.

(** An annotation dict; [gaze_number] is [None] until the key is set. *)
Record Annotation : Type := mkAnnotation {
  bbox : BBox;
  gaze : Point;
  target_type : string;
  farther_closer : string;
  scale : string;
  object_detection : string;
  focal_point : string;
  gaze_number : option Z
}.

(** The image-metadata collaborator: full path, width and height of the
    item's image, or the exception of the lookup. *)
Variable resolve_image_full_path : Item -> result (string * Z * Z).

Definition make_ann (bbox : BBox) (width height : Z) (g : Point)
  : result Annotation :=
  analysis <- analyze_gaze bbox g width height ;;
  Ok {| bbox := bbox;
        gaze := g;
        target_type := a_target_type analysis;
        farther_closer := a_farther_closer analysis;
        scale := a_scale analysis;
        object_detection := a_object_detection analysis;
        focal_point := a_focal_point analysis;
        gaze_number := None |}.

(** [for g in gazes: anns.append(make_ann(normalize_point(g, ...)))] *)
Fixpoint append_gazes (bbox : BBox) (is_gf : bool) (width height : Z)
    (anns : list Annotation) (gazes : list pyval) : result (list Annotation) :=
  match gazes with
  | [] => Ok anns
  | g :: gazes' =>
      gp <- normalize_point g is_gf width height ;;
      a <- make_ann bbox width height gp ;;
      append_gazes bbox is_gf width height (anns ++ [a])%list gazes'
  end.

(** [for i, ann in enumerate(anns, start=i): ann['gaze_number'] = i] *)
Fixpoint assign_numbers (i : Z) (anns : list Annotation) : list Annotation :=
  match anns with
  | [] => []
  | ann :: anns' =>
      {| bbox := bbox ann;
         gaze := gaze ann;
         target_type := target_type ann;
         farther_closer := farther_closer ann;
         scale := scale ann;
         object_detection := object_detection ann;
         focal_point := focal_point ann;
         gaze_number := Some i |} :: assign_numbers (i + 1) anns'
  end.

Definition is_gazefollow (p : string) : bool :=
  String.prefix "train/" p || String.prefix "test2/" p.

Definition build_annotations (item : Item) : result (list Annotation) :=
  '(full_path, width, height) <- resolve_image_full_path item ;;
  let p := item_path item in
  let is_gf := is_gazefollow p in
  bbox <- normalize_bbox (item_bbox item) is_gf width height ;;
  eye <- normalize_point (item_eye item) is_gf width height ;;
  gaze <- normalize_point
            (if py_not (item_gaze item)
             then PList [PFloat (fst eye); PFloat (snd eye)]
             else item_gaze item)
            is_gf width height ;;
  (* 1) Primary annotation from dataset's gaze *)
  a <- make_ann bbox width height gaze ;;
  let anns := [a] in
  (* 2) Secondary: eye-contact annotation if distinct enough from primary;
        an exception of [**] is caught and gives dist = 0.0 *)
  let dist :=
    let dx := fst gaze - fst eye in
    let dy := snd gaze - snd eye in
    match pow_half P (dx * dx + dy * dy) with
    | Ok dist => dist
    | Raise _ => Real 0
    end in
  anns <- match dist with
          | Real dist =>
              if 0.05 <? dist
              then a <- make_ann bbox width height eye ;; Ok (anns ++ [a])%list
              else Ok anns
          | Complex => Raise TypeError
          end ;;
  (* 3) If item contains explicit multiple gazes *)
  anns <- match item_gazes item with
          | PList gazes => append_gazes bbox is_gf width height anns gazes
          | _ => Ok anns
          end ;;
  (* Assign gaze_number sequentially *)
  Ok (assign_numbers 1%Z anns).

(** ** Vocabulary of the properties *)

(** The gaze, the sides of the face box and its centre in pixels, for an
    image of width [w] and height [h]. *)
Definition gaze_px (gaze : Point) (w h : float) : Point :=
  (fst gaze * w, snd gaze * h).

Definition face_sides_px (b : BBox) (w h : float) : float * float :=
  let '(_, _, bw, bh) := b in (bw * w, bh * h).

Definition face_center_px (b : BBox) (w h : float) : Point :=
  let '(bx, by_, bw, bh) := b in
  (bx * w + bw * w / 2, by_ * h + bh * h / 2).



(** The Euclidean distance between two pixel positions: squares by
    [** 2], root by [** 0.5]. *)
Definition pixel_distance (p q : Point) : result pynum :=
  a <- pow_2 P (fst p - fst q) ;;
  b <- pow_2 P (snd p - snd q) ;;
  pow_half P (a + b).

(** The face size: the root of the product of the sides. *)
Definition face_size_px (b : BBox) (w h : float) : result pynum :=
  pow_half P (fst (face_sides_px b w h) * snd (face_sides_px b w h)).




(** The explicit gazes of an item: the entries of its [gazes] list. *)
Definition explicit_gazes (item : Item) : list pyval :=
  match item_gazes item with
  | PList l => l
  | _ => []
  end.

Definition explicit_count (item : Item) : nat :=
  List.length (explicit_gazes item).

(** [item.get('gaze') or eye] *)
Definition primary_source (item : Item) (eye : Point) : pyval :=
  if py_not (item_gaze item)
  then PList [PFloat (fst eye); PFloat (snd eye)]
  else item_gaze item.

(** A truthy value without a length: [true], an [int] other than 0, a
    float other than 0.0 (a NaN is one). *)
Definition truthy_scalar (v : pyval) : Prop :=
  match v with
  | PBool b => b = true
  | PInt z => z <> 0%Z
  | PFloat x => (x =? 0) = false
  | _ => False
  end.

(** The first [n] entries of a [list] or a [str] that has as many. *)
Definition entries (n : nat) (v : pyval) : option (list pyval) :=
  match v with
  | PList l =>
      if (n <=? List.length l)%nat then Some (firstn n l) else None
  | PStr s =>
      if (n <=? String.length s)%nat then Some (firstn n (chars s)) else None
  | _ => None
  end.

(** What dividing a float by an image dimension raises: the
    [OverflowError] of an [int] beyond the float range, or
    [ZeroDivisionError] for one that converts to zero. *)
Definition dimension_error (z : Z) : option exn :=
  match int_to_float z with
  | Raise e => Some e
  | Ok d => if d =? 0 then Some ZeroDivisionError else None
  end.

(** The shape of a printed scale: a sign or none, digits, a point and
    two digits, or the name of a value that is not finite. *)
Definition two_decimals (s : string) : Prop :=
  exists (t : string) (a b : Z),
    s = t ++ String "."%char
               (String (digit a) (String (digit b) EmptyString)) /\
    (0 <= a <= 9)%Z /\ (0 <= b <= 9)%Z.

Definition not_finite_name (s : string) : Prop :=
  s = "nan" \/ s = "inf" \/ s = "-inf".

End Model.

(** ** A platform for the examples

    [pow] correctly rounded behind the special cases of [**] ([x ** 2]
    overflows for a finite [x] whose square is not; the root of a
    negative number is complex, that of an infinity is infinite),
    [dict] slices as before Python 3.12, and no string accepted by
    [float()]. *)

Definition rounded_pow_2 (x : float) : result float :=
  let y := x * x in
  if is_infinity y && negb (is_infinity x) then Raise OverflowError
  else Ok y.

Definition rounded_pow_half (x : float) : result pynum :=
  if is_nan x then Ok (Real x)
  else if is_infinity x then Ok (Real infinity)
  else if x =? 0 then Ok (Real 0)
  else if x <? 0 then Ok Complex
  else Ok (Real (sqrt x)).

Definition rounded : Platform :=
  {| dict_slice_error := TypeError;
     pow_2 := rounded_pow_2;
     pow_half := rounded_pow_half;
     float_of_str := fun _ => None |}.

(** An image that is found, of the given size. *)
Definition found (width height : Z) (item : Item) : result (string * Z * Z) :=
  Ok (item_path item, width, height).


End B64.

(** * The engine on exact rationals *)

Section Engine.

(** Python's [float()] on a [str]: the value, or [None] where it raises
    [ValueError]. *)
Variable float_of_str : string -> option Q.

(** [float(v)] *)
Definition py_float (v : pyval) : result Q :=
  match v with
  | PNone => Raise TypeError
  | PBool b => Ok (if b then 1 else 0)
  | PNum q => Ok q
  | PStr s =>
      match float_of_str s with
      | Some q => Ok q
      | None => Raise ValueError
      end
  | PList _ => Raise TypeError
  | PObj _ => Raise TypeError
  end.

(** ** Geometry normaliser *)

Definition rectify_bbox (x y : Q) (w h : option Q)
  : Q * Q * option Q * option Q :=
  match w, h with
  | Some w0, Some h0 =>
      let '(x, w0) := if w0 <? 0 then (x + w0, - w0) else (x, w0) in
      let '(y, h0) := if h0 <? 0 then (y + h0, - h0) else (y, h0) in
      (x, y, Some w0, Some h0)
  | _, _ => (x, y, w, h)
  end.

Definition BBox : Type := (Q * Q * Q * Q)%type.
Definition Point : Type := (Q * Q)%type.

Definition default_bbox : BBox := (0.25, 0.25, 0.5, 0.5).
Definition default_point : Point := (0.5, 0.5).

(** [max(0.0, min(1.0, v))] *)
Definition clamp01 (v : Q) : Q := Qmax 0 (Qmin 1 v).

Definition normalize_bbox (bbox : pyseq) (is_normalized : bool)
    (width height : Z) : result BBox :=
  if py_not bbox || (py_len bbox <? 4)%nat then Ok default_bbox
  else
    vs <- mapM py_float (py_slice bbox 4) ;;
    match vs with
    | [x; y; w; h] =>
        match rectify_bbox x y (Some w) (Some h) with
        | (x, y, Some w, Some h) =>
            '(x, y, w, h) <-
              (if negb is_normalized then
                 x <- py_div x (inject_Z width) ;;
                 y <- py_div y (inject_Z height) ;;
                 w <- py_div w (inject_Z width) ;;
                 h <- py_div h (inject_Z height) ;;
                 Ok (x, y, w, h)
               else Ok (x, y, w, h)) ;;
            Ok (clamp01 x, clamp01 y, clamp01 w, clamp01 h)
        | _ => Raise TypeError
        end
    | _ => Raise ValueError
    end.

Definition normalize_point (pt : pyseq) (is_normalized : bool)
    (width height : Z) : result Point :=
  if py_not pt || (py_len pt <? 2)%nat then Ok default_point
  else
    match py_slice pt 2 with
    | [px; py] =>
        match (px <- py_float px ;; py <- py_float py ;; Ok (px, py)) with
        | Raise _ => Ok default_point
        | Ok (px, py) =>
            if is_normalized then Ok (px, py)
            else
              px_norm <- (if px >=? 0 then py_div px (inject_Z width)
                          else Ok (-0.05)) ;;
              py_norm <- (if py >=? 0 then py_div py (inject_Z height)
                          else Ok (-0.05)) ;;
              Ok (px_norm, py_norm)
        end
    | _ => Raise ValueError
    end.

(** ** Gaze classifier *)

Record Analysis : Type := mkAnalysis {
  a_target_type : string;
  a_farther_closer : string;
  a_scale : string;
  a_object_detection : string;
  a_focal_point : string
}.

Definition analyze_gaze (bbox : BBox) (gaze : Point) (width height : Z)
  : result Analysis :=
  let '(bx, by_, bw, bh) := bbox in
  let '(gx, gy) := gaze in
  let width' := inject_Z width in
  let height' := inject_Z height in
  let gazeX := gx * width' in
  let gazeY := gy * height' in
  let faceX := bx * width' in
  let faceY := by_ * height' in
  let faceW := bw * width' in
  let faceH := bh * height' in
  (* Target type *)
  let targetType :=
    if (gazeX <? 0) || (gazeX >? width') || (gazeY <? 0) || (gazeY >? height')
    then "out-of-frame target"
    else
      let faceCenterX := faceX + faceW / 2 in
      let faceCenterY := faceY + faceH / 2 in
      (* gazeDistance, as its radicand *)
      let gazeDistance2 :=
        (gazeX - faceCenterX) ^ 2 + (gazeY - faceCenterY) ^ 2 in
      if sqrt_ltb gazeDistance2 (Qmin faceW faceH * 0.3) then "Eye-contact"
      else "in-frame target" in
  (* Farther/closer/equal: gazeDistanceFromFace and faceSize, as radicands *)
  let gazeDistanceFromFace2 :=
    (gazeX - (faceX + faceW / 2)) ^ 2 + (gazeY - (faceY + faceH / 2)) ^ 2 in
  let faceSize2 := faceW * faceH in
  (* a negative radicand makes faceSize complex, which has no order *)
  if faceSize2 <? 0 then Raise TypeError
  else
    let gazePosition :=
      if 2 * 2 * faceSize2 <? gazeDistanceFromFace2 then "farther"
      else if gazeDistanceFromFace2 <? 0.5 * 0.5 * faceSize2 then "closer"
      else "equal" in
    (* Scale estimate in meters *)
    let estimatedFaceWidthMeters := 0.2 in
    pixelsPerMeter <-
      (if estimatedFaceWidthMeters >? 0
       then py_div faceW estimatedFaceWidthMeters
       else Ok 1) ;;
    (* the division by pixelsPerMeter *)
    if Qeq_bool pixelsPerMeter 0 then Raise ZeroDivisionError
    else
      (* gazeDistanceMeters = gazeDistanceFromFace / pixelsPerMeter,
         printed with two decimals *)
      let scale := format_2f_sqrt gazeDistanceFromFace2 pixelsPerMeter in
      (* Object detection heuristic *)
      let objectDetection :=
        if targetType =? "Eye-contact" then "Camera/Viewer"
        else if gy <? 0.3 then "Object above (ceiling, sky, etc.)"
        else if gy >? 0.7 then "Object below (floor, ground, etc.)"
        else if gx <? 0.3 then "Object on left side"
        else if gx >? 0.7 then "Object on right side"
        else "Central object" in
      (* Focal point (region) classification *)
      let focal :=
        if (gx <? 0) || (gx >? 1) || (gy <? 0) || (gy >? 1) then
          let horiz :=
            if gx <? 0 then "left" else if gx >? 1 then "right" else "center" in
          let vert :=
            if gy <? 0 then "top" else if gy >? 1 then "bottom" else "middle" in
          if (horiz =? "center") && (vert =? "middle") then "out-of-frame"
          else if vert =? "middle" then "out-of-frame " ++ horiz
          else if horiz =? "center" then "out-of-frame " ++ vert
          else "out-of-frame " ++ vert ++ "-" ++ horiz
        else
          let horiz :=
            if gx <? 0.3333 then "left"
            else if gx >? 0.6667 then "right" else "center" in
          let vert :=
            if gy <? 0.3333 then "top"
            else if gy >? 0.6667 then "bottom" else "middle" in
          if (horiz =? "center") && (vert =? "middle") then "center"
          else if vert =? "middle" then horiz
          else if horiz =? "center" then vert
          else vert ++ "-" ++ horiz in
      Ok (mkAnalysis targetType gazePosition scale objectDetection focal).

(** ** Annotation assembler *)

Record Item : Type := mkItem {
  item_path : string;
  item_bbox : pyseq;
  item_eye : pyseq;
  item_gaze : pyseq;
  item_gazes : option (list pyseq)
}.

(** An annotation dict; [gaze_number] is [None] until the key is set. *)
Record Annotation : Type := mkAnnotation {
  bbox : BBox;
  gaze : Point;
  target_type : string;
  farther_closer : string;
  scale : string;
  object_detection : string;
  focal_point : string;
  gaze_number : option Z
}.

(** The image-metadata collaborator: full path, width and height of the
    item's image, or [FileNotFoundError]. *)
Variable resolve_image_full_path : Item -> result (string * Z * Z).

Definition make_ann (bbox : BBox) (width height : Z) (g : Point)
  : result Annotation :=
  analysis <- analyze_gaze bbox g width height ;;
  Ok {| bbox := bbox;
        gaze := g;
        target_type := a_target_type analysis;
        farther_closer := a_farther_closer analysis;
        scale := a_scale analysis;
        object_detection := a_object_detection analysis;
        focal_point := a_focal_point analysis;
        gaze_number := None |}.

(** [for g in gazes: anns.append(make_ann(normalize_point(g, ...)))] *)
Fixpoint append_gazes (bbox : BBox) (is_gf : bool) (width height : Z)
    (anns : list Annotation) (gazes : list pyseq) : result (list Annotation) :=
  match gazes with
  | [] => Ok anns
  | g :: gazes' =>
      gp <- normalize_point g is_gf width height ;;
      a <- make_ann bbox width height gp ;;
      append_gazes bbox is_gf width height (anns ++ [a])%list gazes'
  end.

(** [for i, ann in enumerate(anns, start=i): ann['gaze_number'] = i] *)
Fixpoint assign_numbers (i : Z) (anns : list Annotation) : list Annotation :=
  match anns with
  | [] => []
  | ann :: anns' =>
      {| bbox := bbox ann;
         gaze := gaze ann;
         target_type := target_type ann;
         farther_closer := farther_closer ann;
         scale := scale ann;
         object_detection := object_detection ann;
         focal_point := focal_point ann;
         gaze_number := Some i |} :: assign_numbers (i + 1) anns'
  end.

Definition is_gazefollow (p : string) : bool :=
  String.prefix "train/" p || String.prefix "test2/" p.

(** The squared distance [dx*dx + dy*dy] between two points. *)
Definition dist2 (gaze eye : Point) : Q :=
  let dx := fst gaze - fst eye in
  let dy := snd gaze - snd eye in
  dx * dx + dy * dy.

Definition build_annotations (item : Item) : result (list Annotation) :=
  '(full_path, width, height) <- resolve_image_full_path item ;;
  let p := item_path item in
  let is_gf := is_gazefollow p in
  bbox <- normalize_bbox (item_bbox item) is_gf width height ;;
  eye <- normalize_point (item_eye item) is_gf width height ;;
  gaze <- normalize_point
            (if py_not (item_gaze item)
             then Some [PNum (fst eye); PNum (snd eye)]
             else item_gaze item)
            is_gf width height ;;
  (* 1) Primary annotation from dataset's gaze *)
  a <- make_ann bbox width height gaze ;;
  let anns := [a] in
  (* 2) Secondary: eye-contact annotation if distinct enough from primary;
        dist = (dx*dx + dy*dy) ** 0.5 never raises on two points *)
  anns <- (if sqrt_gtb (dist2 gaze eye) 0.05
           then a <- make_ann bbox width height eye ;; Ok (anns ++ [a])%list
           else Ok anns) ;;
  (* 3) If item contains explicit multiple gazes *)
  anns <- match item_gazes item with
          | Some gazes => append_gazes bbox is_gf width height anns gazes
          | None => Ok anns
          end ;;
  (* Assign gaze_number sequentially *)
  Ok (assign_numbers 1 anns).

(** ** Vocabulary of the properties *)

(** A component on which [float()] succeeds. *)
Definition numeric (v : pyval) : Prop := exists q, py_float v = Ok q.

(** A field with at least [n] components, the first [n] of them numeric. *)
Definition well_formed (n : nat) (s : pyseq) : Prop :=
  exists l, s = Some l /\ (n <= List.length l)%nat /\
            Forall numeric (firstn n l).

(** A field that is missing, empty or too short, or that has a
    non-numeric component among the [n] that are read. *)
Definition malformed (n : nat) (s : pyseq) : Prop :=
  s = None \/
  exists l, s = Some l /\
            ((List.length l < n)%nat \/
             Exists (fun v => ~ numeric v) (firstn n l)).

Definition in_unit (v : Q) : Prop := 0 <= v <= 1.

Definition in_unit_box (b : BBox) : Prop :=
  let '(x, y, w, h) := b in
  in_unit x /\ in_unit y /\ in_unit w /\ in_unit h.


(** The Euclidean length [a ** 0.5] as a real number. *)
Definition root (a : Q) : R := sqrt (Q2R a).

(** The sides of the face box in pixels. *)
Definition face_size_px (b : BBox) (width height : Z) : Q * Q :=
  let '(_, _, bw, bh) := b in (bw * inject_Z width, bh * inject_Z height).

(** The 3x3 split as the specification words it, for thresholds [lo] and
    [hi]: a horizontal and a vertical word, joined vertical first. *)
Definition join_words (vert horiz : string) : string :=
  if (horiz =? "center") && (vert =? "middle") then "center"
  else if vert =? "middle" then horiz
  else if horiz =? "center" then vert
  else vert ++ "-" ++ horiz.

Definition grid_spec (lo hi gx gy : Q) (label : string) : Prop :=
  exists horiz vert,
    (horiz = "left" <-> gx < lo) /\
    (horiz = "right" <-> gx > hi) /\
    (horiz = "center" <-> lo <= gx <= hi) /\
    (vert = "top" <-> gy < lo) /\
    (vert = "bottom" <-> gy > hi) /\
    (vert = "middle" <-> lo <= gy <= hi) /\
    label = join_words vert horiz.

(** The entries of the explicit [gazes] list, and their number. *)
Definition explicit_gazes (item : Item) : list pyseq :=
  match item_gazes item with
  | Some gazes => gazes
  | None => []
  end.

Definition explicit_count (item : Item) : nat :=
  List.length (explicit_gazes item).

(** What [normalize_point] is given for the primary gaze:
    [item.get('gaze') or eye]. *)
Definition primary_source (item : Item) (eye : Point) : pyseq :=
  if py_not (item_gaze item)
  then Some [PNum (fst eye); PNum (snd eye)]
  else item_gaze item.

(** The gazes of the records a run emits, in order: the primary gaze [g],
    the eye when it is farther than 0.05 from [g], the explicit gazes. *)
Definition emitted (g eye : Point) (gps : list Point) : list Point :=
  g :: ((if sqrt_gtb (dist2 g eye) 0.05 then [eye] else []) ++ gps)%list.

(** The stand-ins used to run the engine on concrete inputs: a [float()]
    that accepts no string, and a collaborator that finds every image
    with the given size. *)
Definition no_str_float (s : string) : option Q := None.

Definition found (width height : Z) (item : Item) : result (string * Z * Z) :=
  Ok ("merged_images/" ++ item_path item, width, height).

(** Concrete inputs: an item of the other dataset, in pixel coordinates
    and without a gaze; a GazeFollow item with two explicit gazes; a box
    whose first component is a string that is no number. *)
Definition vat_item_no_gaze : Item :=
  mkItem "videos/clip/0001.jpg"
         (Some [PNum 20; PNum 10; PNum 50; PNum 50])
         (Some [PNum 100; PNum 50]) None None.

Definition gf_item : Item :=
  mkItem "train/00000000/00000001.jpg"
         (Some [PNum 0.3; PNum 0.3; PNum 0.2; PNum 0.2])
         (Some [PNum 0.4; PNum 0.4]) (Some [PNum 0.8; PNum 0.6])
         (Some [Some [PNum 0.1; PNum 0.9]; None]).

Definition bad_box : list pyval :=
  [PStr "n/a"; PNum 0.3; PNum 0.2; PNum 0.2].

(** The focal-point labels: nine inside the frame, eight outside. *)
Definition focal_labels : list string :=
  ["center"; "left"; "right"; "top"; "bottom";
   "top-left"; "top-right"; "bottom-left"; "bottom-right";
   "out-of-frame left"; "out-of-frame right";
   "out-of-frame top"; "out-of-frame bottom";
   "out-of-frame top-left"; "out-of-frame top-right";
   "out-of-frame bottom-left"; "out-of-frame bottom-right"].

(** More items: GazeFollow without a gaze; the other dataset with a
    gaze, with a box of no width, and with no image in the merged set. *)
Definition gf_item_no_gaze : Item :=
  mkItem "train/00000000/00000003.jpg"
         (Some [PNum 0.3; PNum 0.3; PNum 0.2; PNum 0.2])
         (Some [PNum 0.4; PNum 0.4]) None
         (Some [Some [PNum 0.1; PNum 0.9]]).

Definition vat_item_gaze : Item :=
  mkItem "videos/clip/0002.png"
         (Some [PNum 20; PNum 10; PNum 50; PNum 50])
         (Some [PNum 40; PNum 30]) (Some [PNum 150; PNum 80]) None.

Definition vat_flat_item : Item :=
  mkItem "videos/clip/0002.png"
         (Some [PNum 20; PNum 10; PNum 0; PNum 50])
         (Some [PNum 40; PNum 30]) (Some [PNum 150; PNum 80]) None.

Definition vat_item_missing : Item :=
  mkItem "videos/clip/0003.jpg"
         (Some [PNum 20; PNum 10; PNum 50; PNum 50])
         (Some [PNum 40; PNum 30]) (Some [PNum 150; PNum 80]) None.

(** ** Dataset files and the session

    The file system and the labeling session are collaborators, seen
    through parameters: the [os.path] functions, a snapshot of [os.walk],
    [os.path.exists], the size PIL reads, and the status code the session
    answers to a POST.  Paths are strings; a Python set of strings is a
    list read through membership only. *)

Variable basename : string -> string.
Variable splitext : string -> string * string.
Variable path_join : string -> string -> string.
Variable relpath : string -> string -> string.
(** [s.replace('/', os.sep)] and [s.replace(os.sep, '/')] *)
Variable to_os_sep : string -> string.
Variable from_os_sep : string -> string.
(** [os.walk(d)]: the triples [(root, dirs, files)] in visiting order. *)
Variable walk : string -> list (string * list string * list string).
Variable path_exists : string -> bool.
(** [Image.open(path).size] *)
Variable image_size : string -> result (Z * Z).
(** The dataset roots [GF_ROOT] and [VAT_ROOT], fixed when the module is
    loaded from the environment, are arguments of the functions that read
    them. *)

(** [s in set] *)
Definition set_mem (s : string) (l : list string) : bool :=
  existsb (String.eqb s) l.

(** The two walks of [collect_merged_sets], taken not to raise. *)
Definition collect_merged_sets (GF_ROOT VAT_ROOT : string)
  : list string * list string :=
  let gf_rel_paths :=
    flat_map (fun '(root, _, files) =>
                map (fun f => from_os_sep
                                (relpath (path_join root f) GF_ROOT))
                    files)
             (walk GF_ROOT) in
  let vat_basenames :=
    flat_map (fun '(_, _, files) => files) (walk VAT_ROOT) in
  (gf_rel_paths, vat_basenames).

(** The loop of [load_available_images] over the manifest. *)
Fixpoint select_available (gf_set vat_set : list string)
    (all_images : list Item) : list Item :=
  match all_images with
  | [] => []
  | item :: rest =>
      let p := item_path item in
      if String.prefix "train/" p || String.prefix "test2/" p then
        if set_mem p gf_set
        then item :: select_available gf_set vat_set rest
        else select_available gf_set vat_set rest
      else
        let fname := basename p in
        if set_mem fname vat_set
        then item :: select_available gf_set vat_set rest
        else select_available gf_set vat_set rest
  end.

(** [all_images] is the manifest as [json.load] returns it, [None] when
    loading raises. *)
Definition load_available_images (GF_ROOT VAT_ROOT : string)
    (all_images : option (list Item)) : list Item :=
  let all_images :=
    match all_images with
    | Some l => l
    | None => []
    end in
  let '(gf_set, vat_set) := collect_merged_sets GF_ROOT VAT_ROOT in
  select_available gf_set vat_set all_images.

(** [for file in files: ...] of [find_image_file] *)
Fixpoint find_in_files (root filename base_name : string)
    (files : list string) : option string :=
  match files with
  | [] => None
  | file :: files' =>
      if (file =? filename) || (fst (splitext file) =? base_name)
      then Some (path_join root file)
      else find_in_files root filename base_name files'
  end.

(** [for root, dirs, files in os.walk(base_dir): ...] *)
Fixpoint find_in_walk (filename base_name : string)
    (w : list (string * list string * list string)) : option string :=
  match w with
  | [] => None
  | (root, _, files) :: w' =>
      match find_in_files root filename base_name files with
      | Some p => Some p
      | None => find_in_walk filename base_name w'
      end
  end.

Definition find_image_file (base_dir filename : string) : option string :=
  let base_name := fst (splitext filename) in
  find_in_walk filename base_name (walk base_dir).

(** [a or b] on optional paths: [None] and the empty string are falsy. *)
Definition py_or (a b : option string) : option string :=
  match a with
  | Some s => if s =? EmptyString then b else a
  | None => b
  end.

(** [resolve_image_full_path] on the file system above. *)
Definition resolve_image_on_disk (GF_ROOT VAT_ROOT : string) (item : Item)
  : result (string * Z * Z) :=
  let filename := basename (item_path item) in
  let full_path :=
    if String.prefix "test2/" (item_path item) ||
       String.prefix "train/" (item_path item)
    then Some (path_join GF_ROOT (to_os_sep (item_path item)))
    else py_or (find_image_file VAT_ROOT filename)
               (find_image_file VAT_ROOT
                  (fst (splitext filename) ++ ".jpg")) in
  match full_path with
  | None => Raise FileNotFoundError
  | Some fp =>
      if (fp =? EmptyString) || negb (path_exists fp)
      then Raise FileNotFoundError
      else '(width, height) <- image_size fp ;; Ok (fp, width, height)
  end.

(** The POSTs of a run: the image index and the annotations sent. *)
Definition Log : Type := list (nat * list Annotation).

(** The status code the session answers to a POST, given the POSTs made
    before it. *)
Variable post : Log -> nat -> list Annotation -> Z.

(** How the loop of [main] ends: every image done, a POST refused, or an
    exception of [build_annotations]. *)
Inductive ending : Type :=
| Finished
| PostFailed (idx : nat) (status : Z)
| Crashed (e : exn).

(** [status in (200, 302)] *)
Definition status_ok (status : Z) : bool :=
  (status =? 200)%Z || (status =? 302)%Z.

(** [for idx, item in enumerate(available[:total]): ...], from index
    [idx] on. *)
Fixpoint annotate_all (log : Log) (idx : nat) (items : list Item)
  : Log * ending :=
  match items with
  | [] => (log, Finished)
  | item :: rest =>
      match build_annotations item with
      | Raise e => (log, Crashed e)
      | Ok anns =>
          let status := post log idx anns in
          let log := (log ++ [(idx, anns)])%list in
          if negb (status_ok status) then (log, PostFailed idx status)
          else annotate_all log (S idx) rest
      end
  end.

(** [main]: [requests] tells whether the package is importable,
    [init_status] is the status of the first GET, [page_status] and
    [page_total] the status of the first label page and the count parsed
    from it, if any. *)
Definition main (GF_ROOT VAT_ROOT : string)
    (all_images : option (list Item)) (requests : bool)
    (init_status page_status : Z) (page_total : option nat)
  : Log * ending :=
  let available := load_available_images GF_ROOT VAT_ROOT all_images in
  match available with
  | [] => ([], Finished)
  | _ :: _ =>
      if negb requests then ([], Finished)
      else if negb (status_ok init_status) then ([], Finished)
      else
        let session_total :=
          if (page_status =? 200)%Z then page_total else None in
        let session_total :=
          match session_total with
          | Some n => n
          | None => 500%nat
          end in
        let total := Nat.min (List.length available) session_total in
        annotate_all [] 0 (firstn total available)
  end.

(** Vocabulary for the dataset files: a file answers a search for
    [filename] when it has that name or that stem; a file is listed under
    [d] when the walk of [d] shows it in the directory [root]. *)
Definition matches (filename file : string) : Prop :=
  file = filename \/ fst (splitext file) = fst (splitext filename).

Definition listed (d root file : string) : Prop :=
  exists dirs files, In (root, dirs, files) (walk d) /\ In file files.

(** An item whose image is in the merged set: by relative path under
    [GF_ROOT] for GazeFollow, by file name anywhere under [VAT_ROOT]
    otherwise. *)
Definition backed (GF_ROOT VAT_ROOT : string) (item : Item) : Prop :=
  if is_gazefollow (item_path item)
  then exists root file,
         listed GF_ROOT root file /\
         from_os_sep (relpath (path_join root file) GF_ROOT) =
         item_path item
  else exists root, listed VAT_ROOT root (basename (item_path item)).

(** The session total [main] settles on. *)
Definition session_total (page_status : Z) (page_total : option nat) : nat :=
  match (if (page_status =? 200)%Z then page_total else None) with
  | Some n => n
  | None => 500%nat
  end.

(** Stand-ins for the file system, POSIX style, used on concrete inputs. *)
Fixpoint after_last_slash (acc s : string) : string :=
  match s with
  | EmptyString => acc
  | String c s' =>
      if Ascii.eqb c "/"
      then after_last_slash EmptyString s'
      else after_last_slash (acc ++ String c EmptyString) s'
  end.

Definition posix_basename (s : string) : string :=
  after_last_slash EmptyString s.

Fixpoint rindex_from (c : ascii) (s : string) (i : nat) (last : option nat)
  : option nat :=
  match s with
  | EmptyString => last
  | String x s' =>
      rindex_from c s' (S i) (if Ascii.eqb x c then Some i else last)
  end.

Fixpoint has_non_dot (s : string) : bool :=
  match s with
  | EmptyString => false
  | String x s' => negb (Ascii.eqb x ".") || has_non_dot s'
  end.

Definition posix_splitext (p : string) : string * string :=
  match rindex_from "." p 0 None with
  | None => (p, EmptyString)
  | Some d =>
      let start :=
        match rindex_from "/" p 0 None with
        | None => 0%nat
        | Some i => S i
        end in
      if (d <? start)%nat then (p, EmptyString)
      else if has_non_dot (substring start (d - start) p)
           then (substring 0 d p, substring d (String.length p - d) p)
           else (p, EmptyString)
  end.

Definition posix_join (a b : string) : string := a ++ "/" ++ b.

(** [relpath(p, start)] for a path under [start]. *)
Definition posix_relpath (p start : string) : string :=
  if String.prefix (start ++ "/") p
  then substring (S (String.length start))
                 (String.length p - S (String.length start)) p
  else p.

Definition vat_walk (d : string)
  : list (string * list string * list string) :=
  if d =? "merged_images/vat"
  then [("merged_images/vat", ["clip"], ["readme.txt"]);
        ("merged_images/vat/clip", [], ["0002.png"; "0001.jpg"])]
  else [].

Definition on_disk (p : string) : bool :=
  set_mem p ["merged_images/vat/readme.txt";
             "merged_images/vat/clip/0002.png";
             "merged_images/vat/clip/0001.jpg"].

Definition size_200_100 (p : string) : result (Z * Z) := Ok (200%Z, 100%Z).

Definition same_path (s : string) : string := s.

Definition accept_all (log : Log) (idx : nat) (anns : list Annotation) : Z :=
  200%Z.

(** A session that refuses the POST for image 1. *)
Definition refuse_second (log : Log) (idx : nat) (anns : list Annotation)
  : Z :=
  if (idx =? 1)%nat then 500%Z else 302%Z.

(** * Properties *)

(** Linear arithmetic over the rationals and over the reals. *)
Ltac qlra := Lqa.lra.
Ltac rlra := Lra.lra.

(** ** Comparisons *)

Lemma Qltb_lt (x y : Q) : (x <? y) = true <-> x < y.
Proof.
  unfold Qltb. rewrite negb_true_iff. split; intro H.
  - apply Qnot_le_lt. intro L. apply Qle_bool_iff in L. congruence.
  - destruct (Qle_bool y x) eqn:E; trivial.
    apply Qle_bool_iff in E. exfalso. exact (Qlt_not_le _ _ H E).
Qed.

Lemma Qltb_ge (x y : Q) : (x <? y) = false <-> y <= x.
Proof.
  unfold Qltb. rewrite negb_false_iff. apply Qle_bool_iff.
Qed.

Lemma Qgtb_lt (x y : Q) : (x >? y) = true <-> y < x.
Proof. apply Qltb_lt. Qed.

Lemma Qgtb_le (x y : Q) : (x >? y) = false <-> x <= y.
Proof. apply Qltb_ge. Qed.

Lemma Qgeb_le (x y : Q) : (x >=? y) = true <-> y <= x.
Proof. apply Qle_bool_iff. Qed.

Lemma Qltb_spec (x y : Q) : reflect (x < y) (x <? y).
Proof.
  destruct (x <? y) eqn:E; constructor.
  - now apply Qltb_lt.
  - apply Qltb_ge in E. now apply Qle_not_lt.
Qed.

Lemma Qeq_bool_spec (x y : Q) : reflect (x == y) (Qeq_bool x y).
Proof.
  destruct (Qeq_bool x y) eqn:E; constructor.
  - now apply Qeq_bool_iff.
  - now apply Qeq_bool_neq.
Qed.

(** ** rectify_bbox *)




Lemma rectify_bbox_cases (x y w h : Q) :
  rectify_bbox x y (Some w) (Some h) =
  (if w <? 0 then x + w else x,
   if h <? 0 then y + h else y,
   Some (if w <? 0 then - w else w),
   Some (if h <? 0 then - h else h)).
Proof.
  unfold rectify_bbox. now destruct (w <? 0), (h <? 0).
Qed.

Lemma flipped_nonneg (w : Q) : 0 <= (if w <? 0 then - w else w).
Proof.
  destruct (Qltb_spec w 0) as [N | P].
  - qlra.
  - now apply Qnot_lt_le.
Qed.




(** Without a width or a height the box is returned as it is, so the
    function is idempotent on every input. *)
Lemma rectify_bbox_idempotent_any (x y : Q) (w h : option Q) :
  let '(x', y', w', h') := rectify_bbox x y w h in
  rectify_bbox x' y' w' h' = (x', y', w', h').
Proof.
  destruct w as [w |], h as [h |]; try reflexivity.
  rewrite !rectify_bbox_cases.
  assert (Hw := flipped_nonneg w). assert (Hh := flipped_nonneg h).
  apply Qltb_ge in Hw, Hh. now rewrite Hw, Hh.
Qed.

(** ** The error monad *)

Lemma bind_ok {A B : Type} (m : result A) (k : A -> result B) (b : B) :
  bind m k = Ok b -> exists a, m = Ok a /\ k a = Ok b.
Proof.
  destruct m as [a | e]; simpl; [eauto | discriminate].
Qed.

Lemma mapM_raises {A B : Type} (f : A -> result B) (l : list A) :
  Exists (fun a => raises (f a)) l -> raises (mapM f l).
Proof.
  induction 1 as [a l [e He] | a l _ [e IH]]; simpl.
  - rewrite He. now exists e.
  - destruct (f a) as [b | e0]; simpl.
    + rewrite IH. now exists e.
    + now exists e0.
Qed.

Lemma mapM_ok {A B : Type} (f : A -> result B) (l : list A) :
  Forall (fun a => exists b, f a = Ok b) l ->
  exists bs, mapM f l = Ok bs /\ List.length bs = List.length l.
Proof.
  induction 1 as [| a l [b Hb] _ [bs [IH L]]]; simpl.
  - now exists [].
  - rewrite Hb, IH. simpl. exists (b :: bs). simpl. now rewrite L.
Qed.

Lemma py_div_ok (x y : Q) : ~ y == 0 -> py_div x y = Ok (x / y).
Proof.
  intro H. unfold py_div. now destruct (Qeq_bool_spec y 0).
Qed.

Lemma inject_Z_nonzero (z : Z) : z <> 0%Z -> ~ inject_Z z == 0.
Proof.
  intros H E. apply H. unfold Qeq in E. simpl in E. lia.
Qed.

Lemma clamp01_in_unit (v : Q) : in_unit (clamp01 v).
Proof.
  unfold in_unit, clamp01. split.
  - apply Q.le_max_l.
  - apply Q.max_lub; [discriminate | apply Q.le_min_l].
Qed.

(** ** normalize_bbox and normalize_point *)

Lemma not_numeric_raises (v : pyval) : ~ numeric v -> raises (py_float v).
Proof.
  intro H. destruct (py_float v) as [q | e] eqn:E.
  - exfalso. apply H. now exists q.
  - now exists e.
Qed.

Lemma too_short (n : nat) (l : list pyval) :
  (List.length l < S n)%nat ->
  py_not (Some l) || (py_len (Some l) <? S n)%nat = true.
Proof.
  intro H. apply orb_true_iff. right. now apply Nat.ltb_lt.
Qed.

Lemma long_enough (n : nat) (l : list pyval) :
  (S n <= List.length l)%nat ->
  py_not (Some l) || (py_len (Some l) <? S n)%nat = false.
Proof.
  intro H. apply orb_false_iff. split.
  - destruct l; [simpl in H; lia | reflexivity].
  - apply Nat.ltb_ge. exact H.
Qed.

(** X2: a missing, empty or short box gives the default box, whatever
    the flag and the image size. *)
Lemma normalize_bbox_short (bbox : pyseq) (is_normalized : bool)
    (width height : Z) :
  bbox = None \/ (exists l, bbox = Some l /\ (List.length l < 4)%nat) ->
  normalize_bbox bbox is_normalized width height = Ok default_bbox.
Proof.
  intros [-> | (l & -> & H)]; unfold normalize_bbox.
  - reflexivity.
  - now rewrite too_short.
Qed.

(** X1: every malformed point gives the default point, and nothing is
    raised, whatever the flag and the image size. *)
Lemma normalize_point_malformed (pt : pyseq) (is_normalized : bool)
    (width height : Z) :
  malformed 2 pt ->
  normalize_point pt is_normalized width height = Ok default_point.
Proof.
  intros [-> | (l & -> & [H | H])]; unfold normalize_point.
  - reflexivity.
  - now rewrite too_short.
  - destruct l as [| a [| b l]]; try reflexivity.
    simpl. apply Exists_cons in H. destruct H as [H | H].
    + destruct (not_numeric_raises a H) as [e ->]. reflexivity.
    + apply Exists_cons in H. destruct H as [H | H]; [| inversion H].
      destruct (not_numeric_raises b H) as [e ->].
      now destruct (py_float a).
Qed.

(** C1: a list of four or more components with a non-numeric one among
    the first four makes [normalize_bbox] raise: the conversions are not
    guarded as they are in [normalize_point], and no default is returned. *)
Theorem normalize_bbox_non_numeric_raises (l : list pyval)
    (is_normalized : bool) (width height : Z) :
  (4 <= List.length l)%nat ->
  Exists (fun v => ~ numeric v) (firstn 4 l) ->
  raises (normalize_bbox (Some l) is_normalized width height).
Proof.
  intros L H. unfold normalize_bbox.
  rewrite long_enough by exact L.
  assert (R : raises (mapM py_float (py_slice (Some l) 4))).
  { apply mapM_raises. simpl.
    eapply Exists_impl; [| exact H]. apply not_numeric_raises. }
  destruct R as [e ->]. now exists e.
Qed.

Lemma well_formed_bbox_values (bbox : pyseq) :
  well_formed 4 bbox ->
  exists x y w h, mapM py_float (py_slice bbox 4) = Ok [x; y; w; h] /\
                  py_not bbox || (py_len bbox <? 4)%nat = false.
Proof.
  intros (l & -> & L & F).
  destruct (mapM_ok py_float (firstn 4 l) F) as (vs & E & Len).
  rewrite length_firstn, Nat.min_l in Len by exact L.
  destruct vs as [| x [| y [| w [| h [| ? ?]]]]]; try discriminate.
  exists x, y, w, h. split; [exact E | now apply long_enough].
Qed.

(** The value of [normalize_bbox] on a well-formed box. *)
Lemma normalize_bbox_well_formed (bbox : pyseq) (is_normalized : bool)
    (width height : Z) :
  well_formed 4 bbox ->
  is_normalized = true \/ (width <> 0%Z /\ height <> 0%Z) ->
  exists x y w h,
    normalize_bbox bbox is_normalized width height =
    Ok (clamp01 x, clamp01 y, clamp01 w, clamp01 h).
Proof.
  intros W D.
  destruct (well_formed_bbox_values bbox W) as (x & y & w & h & E & G).
  unfold normalize_bbox. rewrite G, E. cbn [bind].
  rewrite rectify_bbox_cases.
  destruct is_normalized; simpl negb; cbv iota.
  - simpl. eauto.
  - destruct D as [D | [Dw Dh]]; [discriminate |].
    rewrite !py_div_ok by (now apply inject_Z_nonzero).
    simpl. eauto.
Qed.

(** C8: a well-formed box is normalised, for positive image dimensions,
    to a box with all four components in [[0, 1]]; a well-formed point
    that is already normalised is returned as its first two components,
    unchanged and unclamped. *)
Theorem normalized_box_in_unit_point_unclamped :
  (forall (bbox : pyseq) (is_normalized : bool) (width height : Z),
     well_formed 4 bbox -> (0 < width)%Z -> (0 < height)%Z ->
     exists b, normalize_bbox bbox is_normalized width height = Ok b /\
               in_unit_box b) /\
  (forall (pt : pyseq) (width height : Z),
     well_formed 2 pt ->
     exists a b rest px py,
       pt = Some (a :: b :: rest) /\
       py_float a = Ok px /\ py_float b = Ok py /\
       normalize_point pt true width height = Ok (px, py)).
Proof.
  split.
  - intros bbox is_normalized width height Wb Hw Hh.
    destruct (normalize_bbox_well_formed bbox is_normalized width height Wb)
      as (x & y & w & h & E); [right; lia |].
    rewrite E. eexists. split; [reflexivity |].
    simpl. auto using clamp01_in_unit.
  - intros pt width height (l & -> & L & F).
    destruct l as [| a [| b rest]]; try (simpl in L; lia).
    simpl in F. inversion F as [| ? ? [px Hx] F']; subst.
    inversion F' as [| ? ? [py Hy] _]; subst.
    exists a, b, rest, px, py. repeat split; try assumption.
    unfold normalize_point. simpl. now rewrite Hx, Hy.
Qed.

(** ** analyze_gaze *)

Lemma Qltb_zero_of_eq (a : Q) : a == 0 -> (a <? 0) = false.
Proof.
  intro H. apply Qltb_ge. rewrite H. apply Qle_refl.
Qed.

Lemma Qmult_nonneg_ltb (a b : Q) : 0 <= a -> 0 <= b -> (a * b <? 0) = false.
Proof.
  intros Ha Hb. apply Qltb_ge. now apply Qmult_le_0_compat.
Qed.

(** The three ways out of [analyze_gaze]: a complex face size, a zero
    [pixelsPerMeter], or the label record. *)
Ltac analyze_gaze_run :=
  unfold analyze_gaze;
  repeat match goal with
         | b : BBox |- _ => destruct b as [[[?bx ?by_] ?bw] ?bh]
         | g : Point |- _ => destruct g as [?gx ?gy]
         end;
  cbv zeta.

(** [analyze_gaze] returns exactly when the face size is real and the
    face width in pixels is not zero. *)
Lemma analyze_gaze_returns (bbox : BBox) (gaze : Point) (width height : Z) :
  let '(faceW, faceH) := face_size_px bbox width height in
  0 <= faceW * faceH -> ~ faceW == 0 ->
  exists r, analyze_gaze bbox gaze width height = Ok r.
Proof.
  analyze_gaze_run. simpl face_size_px. intros P NZ.
  apply Qltb_ge in P. rewrite P.
  change (0.2 >? 0) with true. cbv iota.
  rewrite py_div_ok by discriminate. cbn [bind].
  destruct (Qeq_bool_spec (bw * inject_Z width / 0.2) 0) as [E | _].
  - exfalso. apply NZ.
    setoid_replace (bw * inject_Z width)
      with (bw * inject_Z width / 0.2 * 0.2) by (field; discriminate).
    rewrite E. ring.
  - eauto.
Qed.

(** C2: when the face width resolves to 0 pixels the classifier raises
    [ZeroDivisionError]: the guard tests the constant
    [estimatedFaceWidthMeters], not the divisor, so the fallback divisor
    [1.0] is never taken and no [scale] is produced. *)
Theorem analyze_gaze_zero_face_width_raises
    (bbox : BBox) (gaze : Point) (width height : Z) :
  fst (face_size_px bbox width height) == 0 ->
  analyze_gaze bbox gaze width height = Raise ZeroDivisionError.
Proof.
  analyze_gaze_run. simpl face_size_px. simpl fst. intros Z0.
  rewrite Qltb_zero_of_eq by (rewrite Z0; ring).
  change (0.2 >? 0) with true. cbv iota.
  rewrite py_div_ok by discriminate. cbn [bind].
  destruct (Qeq_bool_spec (bw * inject_Z width / 0.2) 0) as [_ | N].
  - reflexivity.
  - exfalso. apply N. rewrite Z0. reflexivity.
Qed.


(** *** Square roots, in the reals *)

Lemma Q2R_nonneg (a : Q) : 0 <= a -> (0 <= Q2R a)%R.
Proof.
  intro H. apply Qle_Rle in H. now rewrite RMicromega.Q2R_0 in H.
Qed.

Lemma sqrt_ltb_real (a t : Q) :
  0 <= a -> sqrt_ltb a t = true <-> (root a < Q2R t)%R.
Proof.
  intros Ha. unfold sqrt_ltb, root.
  rewrite andb_true_iff, !Qltb_lt.
  assert (Ha' := Q2R_nonneg a Ha).
  assert (Hs := sqrt_pos (Q2R a)).
  split.
  - intros [Ht Hlt]. apply Qlt_Rlt in Ht, Hlt.
    rewrite Q2R_mult in Hlt. rewrite RMicromega.Q2R_0 in Ht.
    rewrite <- (sqrt_square (Q2R t)) by rlra.
    apply sqrt_lt_1_alt. rlra.
  - intros H.
    assert (Ht : (0 < Q2R t)%R) by rlra.
    split; apply Rlt_Qlt.
    + now rewrite RMicromega.Q2R_0.
    + rewrite Q2R_mult, <- (sqrt_sqrt (Q2R a)) by exact Ha'.
      apply Rmult_le_0_lt_compat; rlra.
Qed.

Lemma sqrt_gtb_real (a t : Q) :
  0 <= a -> sqrt_gtb a t = true <-> (Q2R t < root a)%R.
Proof.
  intros Ha. unfold sqrt_gtb, root.
  rewrite orb_true_iff, !Qltb_lt.
  assert (Ha' := Q2R_nonneg a Ha).
  assert (Hs := sqrt_pos (Q2R a)).
  split.
  - intros [Ht | Hlt].
    + apply Qlt_Rlt in Ht. rewrite RMicromega.Q2R_0 in Ht. rlra.
    + apply Qlt_Rlt in Hlt. rewrite Q2R_mult in Hlt.
      destruct (Rlt_le_dec (Q2R t) 0) as [N | P]; [rlra |].
      rewrite <- (sqrt_square (Q2R t)) by exact P.
      apply sqrt_lt_1_alt. split; [apply Rle_0_sqr | exact Hlt].
  - intros H.
    destruct (Qlt_le_dec t 0) as [N | P]; [now left | right].
    apply Rlt_Qlt. apply Q2R_nonneg in P.
    rewrite Q2R_mult, <- (sqrt_sqrt (Q2R a)) by exact Ha'.
    apply Rmult_le_0_lt_compat; rlra.
Qed.

(** *** When the classifier returns *)

(** On a normalised box and positive dimensions the classifier returns
    as soon as the face width in pixels is not zero. *)
Lemma analyze_gaze_returns_normalized (bbox : BBox) (gaze : Point)
    (width height : Z) :
  in_unit_box bbox -> (0 < width)%Z -> (0 < height)%Z ->
  ~ fst (face_size_px bbox width height) == 0 ->
  exists r, analyze_gaze bbox gaze width height = Ok r.
Proof.
  intros U Hw Hh NZ.
  pose proof (analyze_gaze_returns bbox gaze width height) as R.
  destruct bbox as [[[bx by_] bw] bh]. simpl in *.
  apply R; [| exact NZ].
  destruct U as (_ & _ & [Pw _] & [Ph _]).
  assert (0 <= inject_Z width) by (unfold Qle; simpl; lia).
  assert (0 <= inject_Z height) by (unfold Qle; simpl; lia).
  now repeat apply Qmult_le_0_compat.
Qed.


(** *** Scale *)

Lemma sqrt_bounds (y a b : R) :
  (0 <= a)%R -> (0 <= b)%R -> (a * a <= y)%R -> (y <= b * b)%R ->
  (a <= sqrt y <= b)%R.
Proof.
  intros Ha Hb L U. split.
  - rewrite <- (sqrt_square a) by exact Ha. apply sqrt_le_1_alt. exact L.
  - rewrite <- (sqrt_square b) by exact Hb. apply sqrt_le_1_alt. exact U.
Qed.

(** [round_sqrt t] is an integer nearest to the square root of [t]: the
    printed hundredths are within half a unit of the exact value. *)
Lemma round_sqrt_nearest (t : Q) :
  0 <= t -> (Rabs (IZR (round_sqrt t) - root t) <= / 2)%R.
Proof.
  intros Ht. unfold round_sqrt, root. cbv zeta.
  destruct t as [p q]. simpl Qnum. simpl Qden.
  assert (Hp : (0 <= p)%Z) by (unfold Qle in Ht; simpl in Ht; lia).
  set (k := Z.sqrt (p / Z.pos q)).
  assert (Hx : (0 <= p / Z.pos q)%Z) by (apply Z.div_pos; lia).
  pose proof (Z.sqrt_spec _ Hx) as [K1 K2]. fold k in K1, K2.
  assert (Hk : (0 <= k)%Z) by apply Z.sqrt_nonneg.
  assert (D1 : (p / Z.pos q * Z.pos q <= p)%Z)
    by (rewrite Z.mul_comm; apply Z.mul_div_le; lia).
  assert (D2 : (p < (p / Z.pos q + 1) * Z.pos q)%Z).
  { pose proof (Z.mod_pos_bound p (Z.pos q) eq_refl).
    pose proof (Z.div_mod p (Z.pos q)). nia. }
  assert (L : (k * k * Z.pos q <= p)%Z) by nia.
  assert (U : (p < (k + 1) * (k + 1) * Z.pos q)%Z).
  { unfold Z.succ in K2. nia. }
  assert (Hq : (0 < IZR (Z.pos q))%R) by (apply IZR_lt; lia).
  assert (Hk' : (0 <= IZR k)%R) by (apply IZR_le; exact Hk).
  assert (T : Q2R (p # q) = (IZR p / IZR (Z.pos q))%R) by reflexivity.
  rewrite T. set (y := (IZR p / IZR (Z.pos q))%R).
  assert (Ey : (y * IZR (Z.pos q) = IZR p)%R)
    by (unfold y; field; rlra).
  apply IZR_le in L. apply IZR_lt in U.
  rewrite !mult_IZR in L. rewrite !mult_IZR, !plus_IZR in U.
  rewrite <- Ey in L, U.
  assert (Ly : (IZR k * IZR k <= y)%R) by Lra.nra.
  assert (Uy : (y <= (IZR k + 1) * (IZR k + 1))%R) by Lra.nra.
  destruct (4 * p ?= (2 * k + 1) * (2 * k + 1) * Z.pos q)%Z eqn:C.
  - apply Z.compare_eq in C. apply (f_equal IZR) in C.
    rewrite !mult_IZR, !plus_IZR, !mult_IZR in C. rewrite <- Ey in C.
    assert (Hy : (y = (IZR k + / 2) * (IZR k + / 2))%R) by Lra.nra.
    rewrite Hy, sqrt_square by rlra.
    destruct (Z.even k); [| rewrite plus_IZR];
      apply Rabs_le; rlra.
  - apply Z.compare_lt_iff in C. apply IZR_lt in C.
    rewrite !mult_IZR, !plus_IZR, !mult_IZR in C. rewrite <- Ey in C.
    assert (Hy : (y <= (IZR k + / 2) * (IZR k + / 2))%R) by Lra.nra.
    destruct (sqrt_bounds y (IZR k) (IZR k + / 2)) as [B1 B2];
      try rlra.
    apply Rabs_le; rlra.
  - apply Z.compare_gt_iff in C. apply IZR_lt in C.
    rewrite !mult_IZR, !plus_IZR, !mult_IZR in C. rewrite <- Ey in C.
    assert (Hy : ((IZR k + / 2) * (IZR k + / 2) <= y)%R) by Lra.nra.
    destruct (sqrt_bounds y (IZR k + / 2) (IZR k + 1)) as [B1 B2];
      try rlra.
    rewrite plus_IZR. apply Rabs_le; rlra.
Qed.

(** *** Focal point *)

Lemma region_words (lo hi v : Q) (a b c : string) :
  lo <= hi -> a <> b -> a <> c -> b <> c ->
  forall s, s = (if v <? lo then a else if v >? hi then b else c) ->
  (s = a <-> v < lo) /\ (s = b <-> v > hi) /\ (s = c <-> lo <= v <= hi).
Proof.
  intros L AB AC BC s ->.
  destruct (Qltb_spec v lo) as [H1 | H1].
  - repeat split; intros; try congruence; try qlra.
  - apply Qnot_lt_le in H1.
    destruct (Qltb_spec hi v) as [H2 | H2];
      unfold Qgtb; destruct (Qltb_spec hi v) as [H3 | H3];
      try contradiction.
    + repeat split; intros; try congruence; try qlra.
    + apply Qnot_lt_le in H3.
      repeat split; intros; try congruence; try qlra.
Qed.

(** The focal point computed by a run that returns, for a gaze inside the
    unit square. *)
Lemma analyze_gaze_focal_in_range (bbox : BBox) (gx gy : Q)
    (width height : Z) (r : Analysis) :
  in_unit gx -> in_unit gy ->
  analyze_gaze bbox (gx, gy) width height = Ok r ->
  a_focal_point r =
  join_words
    (if gy <? 0.3333 then "top" else if gy >? 0.6667 then "bottom"
     else "middle")
    (if gx <? 0.3333 then "left" else if gx >? 0.6667 then "right"
     else "center").
Proof.
  intros [X0 X1] [Y0 Y1]. analyze_gaze_run.
  destruct (_ <? 0); [discriminate |].
  destruct (if 0.2 >? 0 then _ else _) as [ppm | e]; [| discriminate].
  cbn [bind]. destruct (Qeq_bool ppm 0); [discriminate |].
  intros [= <-]. cbn [a_focal_point].
  apply Qltb_ge in X0, Y0. apply Qgtb_le in X1, Y1.
  rewrite X0, X1, Y0, Y1. reflexivity.
Qed.

(** C4, as amended: for a gaze inside the unit square, on a normalised box
    whose face width in pixels is not zero, the focal point is the 3x3
    label with thresholds 0.3333 and 0.6667. *)
Theorem focal_point_grid (bbox : BBox) (gx gy : Q) (width height : Z) :
  in_unit_box bbox -> (0 < width)%Z -> (0 < height)%Z ->
  ~ fst (face_size_px bbox width height) == 0 ->
  in_unit gx -> in_unit gy ->
  exists r, analyze_gaze bbox (gx, gy) width height = Ok r /\
            grid_spec 0.3333 0.6667 gx gy (a_focal_point r).
Proof.
  intros U Hw Hh NZ X Y.
  destruct (analyze_gaze_returns_normalized bbox (gx, gy) width height
              U Hw Hh NZ) as [r Hr].
  exists r. split; [exact Hr |].
  rewrite (analyze_gaze_focal_in_range _ _ _ _ _ _ X Y Hr).
  unfold grid_spec. do 2 eexists.
  edestruct (region_words 0.3333 0.6667 gx "left" "right" "center")
    as (H1 & H2 & H3); try discriminate; [reflexivity |].
  edestruct (region_words 0.3333 0.6667 gy "top" "bottom" "middle")
    as (V1 & V2 & V3); try discriminate; [reflexivity |].
  split; [exact H1 |]. split; [exact H2 |]. split; [exact H3 |].
  split; [exact V1 |]. split; [exact V2 |]. split; [exact V3 |].
  reflexivity.
Qed.

(** ** build_annotations *)

Lemma normalize_point_total (pt : pyseq) (is_normalized : bool)
    (width height : Z) :
  is_normalized = true \/ (width <> 0%Z /\ height <> 0%Z) ->
  exists q, normalize_point pt is_normalized width height = Ok q.
Proof.
  intros D. unfold normalize_point.
  destruct (py_not pt || (py_len pt <? 2)%nat) eqn:G; [eauto |].
  apply orb_false_iff in G. destruct G as [_ G]. apply Nat.ltb_ge in G.
  destruct pt as [[| a [| b l]] |]; try (simpl in G; lia).
  simpl py_slice. cbv beta iota.
  match goal with
  | |- context [bind (py_float a) ?k] =>
      destruct (bind (py_float a) k) as [[px py] | e]; [| eauto]
  end.
  destruct is_normalized; [now exists (px, py) |].
  destruct D as [D | [Dw Dh]]; [discriminate D |].
  destruct (px >=? 0), (py >=? 0);
    rewrite ?py_div_ok by (now apply inject_Z_nonzero);
    cbn [bind]; eauto.
Qed.

Lemma normalize_bbox_in_unit (bbox : pyseq) (is_normalized : bool)
    (width height : Z) (b : BBox) :
  normalize_bbox bbox is_normalized width height = Ok b -> in_unit_box b.
Proof.
  unfold normalize_bbox.
  destruct (py_not bbox || (py_len bbox <? 4)%nat).
  - intros [= <-]. repeat split; discriminate.
  - intros H. apply bind_ok in H. destruct H as (vs & _ & H).
    destruct vs as [| x [| y [| w [| h [| ? ?]]]]]; try discriminate.
    rewrite rectify_bbox_cases in H.
    apply bind_ok in H. destruct H as ([[[x' y'] w'] h'] & _ & H).
    injection H as <-. simpl. auto using clamp01_in_unit.
Qed.

Lemma make_ann_gaze (b : BBox) (width height : Z) (g : Point)
    (a : Annotation) :
  make_ann b width height g = Ok a -> gaze a = g /\ bbox a = b.
Proof.
  unfold make_ann. intro H. apply bind_ok in H.
  destruct H as (r & _ & [= <-]). now split.
Qed.

Lemma make_ann_returns (b : BBox) (width height : Z) (g : Point) :
  in_unit_box b -> (0 < width)%Z -> (0 < height)%Z ->
  ~ fst (face_size_px b width height) == 0 ->
  exists a, make_ann b width height g = Ok a.
Proof.
  intros U Hw Hh NZ.
  destruct (analyze_gaze_returns_normalized b g width height U Hw Hh NZ)
    as [r Hr].
  unfold make_ann. rewrite Hr. cbn [bind]. eauto.
Qed.

Lemma append_gazes_inv (b : BBox) (is_gf : bool) (width height : Z)
    (gazes : list pyseq) :
  forall anns out,
    append_gazes b is_gf width height anns gazes = Ok out ->
    exists extra,
      out = (anns ++ extra)%list /\
      mapM (fun g => normalize_point g is_gf width height) gazes =
      Ok (map gaze extra).
Proof.
  induction gazes as [| g gazes IH]; intros anns out H.
  - injection H as <-. exists []. split; [now rewrite app_nil_r | reflexivity].
  - cbn [append_gazes] in H.
    apply bind_ok in H. destruct H as (gp & Hg & H).
    apply bind_ok in H. destruct H as (a & Ha & H).
    apply IH in H. destruct H as (extra & -> & M).
    exists (a :: extra). split; [now rewrite <- app_assoc |].
    cbn [mapM map]. rewrite Hg, M. cbn [bind].
    apply make_ann_gaze in Ha. destruct Ha as [-> _]. reflexivity.
Qed.

Lemma append_gazes_returns (b : BBox) (is_gf : bool) (width height : Z)
    (gazes : list pyseq) :
  in_unit_box b -> (0 < width)%Z -> (0 < height)%Z ->
  ~ fst (face_size_px b width height) == 0 ->
  forall anns,
    exists out, append_gazes b is_gf width height anns gazes = Ok out.
Proof.
  intros U Hw Hh NZ.
  induction gazes as [| g gazes IH]; intros anns; cbn [append_gazes].
  - eauto.
  - destruct (normalize_point_total g is_gf width height) as [gp ->];
      [right; lia |].
    cbn [bind].
    destruct (make_ann_returns b width height gp U Hw Hh NZ) as [a ->].
    cbn [bind]. apply IH.
Qed.

Lemma mapM_length {A B : Type} (f : A -> result B) (l : list A) :
  forall bs, mapM f l = Ok bs -> List.length bs = List.length l.
Proof.
  induction l as [| a l IH]; intros bs H.
  - now injection H as <-.
  - cbn [mapM] in H. apply bind_ok in H. destruct H as (b & _ & H).
    apply bind_ok in H. destruct H as (bs' & H' & [= <-]).
    simpl. f_equal. now apply IH.
Qed.

Lemma assign_numbers_gaze (anns : list Annotation) :
  forall i, map gaze (assign_numbers i anns) = map gaze anns.
Proof.
  induction anns as [| a anns IH]; intro i; simpl; [| rewrite IH];
    reflexivity.
Qed.

Lemma assign_numbers_length (anns : list Annotation) :
  forall i, List.length (assign_numbers i anns) = List.length anns.
Proof.
  induction anns as [| a anns IH]; intro i; simpl; [| rewrite IH];
    reflexivity.
Qed.

Lemma assign_numbers_sequence (anns : list Annotation) :
  forall i : nat,
    map gaze_number (assign_numbers (Z.of_nat i) anns) =
    map (fun k => Some (Z.of_nat k)) (seq i (List.length anns)).
Proof.
  induction anns as [| a anns IH]; intro i; simpl; [reflexivity |].
  f_equal. replace (Z.of_nat i + 1)%Z with (Z.of_nat (S i)) by lia.
  apply IH.
Qed.


(** What a run that returns has computed and emitted. *)
Lemma build_annotations_inv (item : Item) (anns : list Annotation) :
  build_annotations item = Ok anns ->
  exists p width height b eye g gps,
    let is_gf := is_gazefollow (item_path item) in
    resolve_image_full_path item = Ok (p, width, height) /\
    normalize_bbox (item_bbox item) is_gf width height = Ok b /\
    normalize_point (item_eye item) is_gf width height = Ok eye /\
    normalize_point (primary_source item eye) is_gf width height = Ok g /\
    mapM (fun q => normalize_point q is_gf width height)
         (explicit_gazes item) = Ok gps /\
    map gaze anns = emitted g eye gps /\
    map gaze_number anns =
    map (fun k => Some (Z.of_nat k)) (seq 1 (List.length anns)).
Proof.
  unfold build_annotations. intro H.
  apply bind_ok in H. destruct H as ([[p width] height] & Hres & H).
  apply bind_ok in H. destruct H as (b & Hb & H).
  apply bind_ok in H. destruct H as (eye & He & H).
  apply bind_ok in H. destruct H as (g & Hg & H).
  apply bind_ok in H. destruct H as (a & Ha & H).
  apply bind_ok in H. destruct H as (anns1 & H1 & H).
  apply bind_ok in H. destruct H as (anns2 & H2 & [= <-]).
  apply make_ann_gaze in Ha. destruct Ha as [Ga _].
  assert (G1 : map gaze anns1 =
               g :: (if sqrt_gtb (dist2 g eye) 0.05 then [eye] else [])).
  { destruct (sqrt_gtb (dist2 g eye) 0.05).
    - apply bind_ok in H1. destruct H1 as (e & Hee & [= <-]).
      apply make_ann_gaze in Hee. destruct Hee as [Ge _].
      simpl. now rewrite Ga, Ge.
    - injection H1 as <-. simpl. now rewrite Ga. }
  assert (G2 : exists extra, anns2 = (anns1 ++ extra)%list /\
            mapM (fun q => normalize_point q
                              (is_gazefollow (item_path item)) width height)
                 (explicit_gazes item) = Ok (map gaze extra)).
  { unfold explicit_gazes. destruct (item_gazes item) as [gazes |].
    - now apply append_gazes_inv in H2.
    - injection H2 as <-. exists []. now rewrite app_nil_r. }
  destruct G2 as (extra & -> & M).
  exists p, width, height, b, eye, g, (map gaze extra). cbv zeta.
  repeat (split; [assumption |]). split.
  - rewrite assign_numbers_gaze, map_app, G1. reflexivity.
  - rewrite assign_numbers_length. apply (assign_numbers_sequence _ 1).
Qed.

(** A run returns when the image is found with positive dimensions, the
    box normalises and its width in pixels is not zero. *)
Lemma build_annotations_returns (item : Item) (p : string)
    (width height : Z) (b : BBox) :
  resolve_image_full_path item = Ok (p, width, height) ->
  (0 < width)%Z -> (0 < height)%Z ->
  normalize_bbox (item_bbox item) (is_gazefollow (item_path item))
                 width height = Ok b ->
  ~ fst (face_size_px b width height) == 0 ->
  exists anns, build_annotations item = Ok anns.
Proof.
  intros Hres Hw Hh Hb NZ. unfold build_annotations.
  rewrite Hres. cbn [bind]. rewrite Hb. cbn [bind].
  pose proof (normalize_bbox_in_unit _ _ _ _ _ Hb) as U.
  set (is_gf := is_gazefollow (item_path item)).
  destruct (normalize_point_total (item_eye item) is_gf width height)
    as [eye ->]; [right; lia |]. cbn [bind].
  match goal with
  | |- context [normalize_point ?src is_gf width height] =>
      destruct (normalize_point_total src is_gf width height)
        as [g ->]; [right; lia |]
  end. cbn [bind].
  destruct (make_ann_returns b width height g U Hw Hh NZ) as [a ->].
  cbn [bind].
  assert (S2 : exists anns1,
             (if sqrt_gtb (dist2 g eye) 0.05
              then a0 <- make_ann b width height eye ;; Ok ([a] ++ [a0])%list
              else Ok [a]) = Ok anns1).
  { destruct (sqrt_gtb (dist2 g eye) 0.05); [| eauto].
    destruct (make_ann_returns b width height eye U Hw Hh NZ) as [e ->].
    cbn [bind]. eauto. }
  destruct S2 as [anns1 ->]. cbn [bind].
  destruct (item_gazes item) as [gazes |].
  - destruct (append_gazes_returns b is_gf width height gazes U Hw Hh NZ
                                   anns1) as [out ->].
    cbn [bind]. eauto.
  - cbn [bind]. eauto.
Qed.



(** X17: on the GazeFollow path, where points are already normalised, an
    item without a gaze has the eye as its primary gaze and no secondary
    record. *)
Lemma gazefollow_no_gaze_primary_is_eye (item : Item)
    (anns : list Annotation) :
  is_gazefollow (item_path item) = true ->
  py_not (item_gaze item) = true ->
  build_annotations item = Ok anns ->
  exists p width height eye a rest,
    resolve_image_full_path item = Ok (p, width, height) /\
    normalize_point (item_eye item) true width height = Ok eye /\
    anns = a :: rest /\ gaze a = eye /\
    List.length rest = explicit_count item.
Proof.
  intros GF NG H.
  destruct (build_annotations_inv item anns H)
    as (p & w & h & b & eye & g & gps & R & _ & He & Hg & M & G & _).
  rewrite GF in *. unfold primary_source in Hg. rewrite NG in Hg.
  change (Ok (fst eye, snd eye) = Ok g) in Hg.
  rewrite <- surjective_pairing in Hg. injection Hg as <-.
  assert (E : sqrt_gtb (dist2 eye eye) 0.05 = false).
  { unfold sqrt_gtb, dist2. cbv zeta. apply orb_false_iff. split.
    - reflexivity.
    - apply Qltb_ge. unfold Qminus. rewrite !Qplus_opp_r. discriminate. }
  unfold emitted in G. rewrite E in G.
  destruct anns as [| a rest]; [discriminate G |].
  injection G as Ga G.
  exists p, w, h, eye, a, rest. repeat split; try assumption.
  rewrite <- (length_map gaze), G. apply (mapM_length _ _ _ M).
Qed.

(** * Further properties *)

(** ** The normaliser on pixel coordinates and at its edges *)

Lemma pixel_coordinate (v : Q) (d : Z) :
  d <> 0%Z ->
  exists n,
    (if v >=? 0 then py_div v (inject_Z d) else Ok (-0.05)) = Ok n /\
    (v < 0 -> n = -0.05) /\ (0 <= v -> n = v / inject_Z d) /\
    ((0 < d)%Z -> 0 <= v <= inject_Z d -> in_unit n).
Proof.
  intro Hd. rewrite py_div_ok by (now apply inject_Z_nonzero).
  destruct (v >=? 0) eqn:E.
  - apply Qgeb_le in E. eexists. split; [reflexivity |].
    split; [intro; exfalso; qlra |]. split; [reflexivity |].
    intros P [V0 V1].
    assert (D : 0 < inject_Z d) by (unfold Qlt; simpl; lia).
    split.
    + apply Qle_shift_div_l; [exact D | now rewrite Qmult_0_l].
    + apply Qle_shift_div_r; [exact D | now rewrite Qmult_1_l].
  - assert (N : ~ 0 <= v) by (intro H; apply Qgeb_le in H; congruence).
    eexists. split; [reflexivity |].
    split; [reflexivity |]. split; [intro; contradiction |].
    intros _ [V0 _]. contradiction.
Qed.

(** X3: a well-formed point in pixel space, for non-zero image dimensions,
    is divided by the image size coordinate by coordinate, except that a
    negative coordinate becomes exactly -0.05 whatever its magnitude; a
    coordinate inside the image lands in [[0, 1]]. *)
Theorem normalize_point_pixel_space (a b : pyval) (rest : list pyval)
    (px py : Q) (width height : Z) :
  py_float a = Ok px -> py_float b = Ok py ->
  width <> 0%Z -> height <> 0%Z ->
  exists nx ny,
    normalize_point (Some (a :: b :: rest)) false width height =
    Ok (nx, ny) /\
    (px < 0 -> nx = -0.05) /\ (0 <= px -> nx = px / inject_Z width) /\
    (py < 0 -> ny = -0.05) /\ (0 <= py -> ny = py / inject_Z height) /\
    ((0 < width)%Z -> 0 <= px <= inject_Z width -> in_unit nx) /\
    ((0 < height)%Z -> 0 <= py <= inject_Z height -> in_unit ny).
Proof.
  intros Hx Hy Dw Dh. unfold normalize_point. simpl py_slice.
  change (py_not (Some (a :: b :: rest)) ||
          (py_len (Some (a :: b :: rest)) <? 2)%nat) with false.
  cbv beta iota. rewrite Hx, Hy. cbn [bind]. cbv beta iota.
  destruct (pixel_coordinate px width Dw) as (nx & -> & X1 & X2 & X3).
  destruct (pixel_coordinate py height Dh) as (ny & -> & Y1 & Y2 & Y3).
  cbn [bind]. exists nx, ny. tauto.
Qed.

(** ** normalize_bbox *)

Lemma clamp01_idempotent (v : Q) : clamp01 (clamp01 v) = clamp01 v.
Proof.
  unfold clamp01, Qmax, Qmin, GenericMinMax.gmax, GenericMinMax.gmin.
  destruct (1 ?= v) eqn:C1; try reflexivity.
  destruct (0 ?= v) eqn:C0; try reflexivity.
  now rewrite C1, C0.
Qed.

Lemma clamp01_nonneg_ltb (v : Q) : (clamp01 v <? 0) = false.
Proof.
  apply Qltb_ge. apply clamp01_in_unit.
Qed.

Lemma normalize_bbox_ok_clamped (bbox : pyseq) (is_normalized : bool)
    (width height : Z) (b : BBox) :
  normalize_bbox bbox is_normalized width height = Ok b ->
  exists x y w h, b = (clamp01 x, clamp01 y, clamp01 w, clamp01 h).
Proof.
  unfold normalize_bbox.
  destruct (py_not bbox || (py_len bbox <? 4)%nat).
  - intros [= <-]. now exists 0.25, 0.25, 0.5, 0.5.
  - intros H. apply bind_ok in H. destruct H as (vs & _ & H).
    destruct vs as [| x [| y [| w [| h [| ? ?]]]]]; try discriminate.
    rewrite rectify_bbox_cases in H.
    apply bind_ok in H. destruct H as ([[[x' y'] w'] h'] & _ & H).
    injection H as <-. now exists x', y', w', h'.
Qed.

(** X6: normalising a normalised box again, as an already normalised
    box, gives it back unchanged, for any image size. *)
Theorem normalize_bbox_renormalize (bbox : pyseq) (is_normalized : bool)
    (width height width' height' : Z) (x y w h : Q) :
  normalize_bbox bbox is_normalized width height = Ok (x, y, w, h) ->
  normalize_bbox (Some [PNum x; PNum y; PNum w; PNum h]) true
                 width' height' = Ok (x, y, w, h).
Proof.
  intro H. apply normalize_bbox_ok_clamped in H.
  destruct H as (x0 & y0 & w0 & h0 & [= -> -> -> ->]).
  unfold normalize_bbox. simpl py_slice.
  change (py_not _ || _) with false. cbv iota.
  cbn [mapM py_float bind]. rewrite rectify_bbox_cases.
  rewrite !clamp01_nonneg_ltb. cbn [negb bind].
  now rewrite !clamp01_idempotent.
Qed.

(** X7: a box given by its opposite corner (negative width or height)
    normalises to the same result as its rectified form. *)
Theorem normalize_bbox_rectified (x y w h x' y' w' h' : Q)
    (is_normalized : bool) (width height : Z) :
  rectify_bbox x y (Some w) (Some h) = (x', y', Some w', Some h') ->
  normalize_bbox (Some [PNum x; PNum y; PNum w; PNum h])
                 is_normalized width height =
  normalize_bbox (Some [PNum x'; PNum y'; PNum w'; PNum h'])
                 is_normalized width height.
Proof.
  rewrite rectify_bbox_cases. intros [= <- <- <- <-].
  unfold normalize_bbox. simpl py_slice.
  change (py_not _ || _) with false. cbv iota.
  cbn [mapM py_float bind]. rewrite !rectify_bbox_cases.
  assert (Hw := flipped_nonneg w). assert (Hh := flipped_nonneg h).
  apply Qltb_ge in Hw, Hh. now rewrite Hw, Hh.
Qed.

(** X8: a box in pixel space that lies inside the image, with
    non-negative width and height, is normalised to the exact ratios: the
    clamping changes nothing. *)
Theorem normalize_bbox_inside_image (x y w h : Q) (width height : Z) :
  (0 < width)%Z -> (0 < height)%Z ->
  0 <= x <= inject_Z width -> 0 <= w <= inject_Z width ->
  0 <= y <= inject_Z height -> 0 <= h <= inject_Z height ->
  exists x' y' w' h',
    normalize_bbox (Some [PNum x; PNum y; PNum w; PNum h])
                   false width height = Ok (x', y', w', h') /\
    x' == x / inject_Z width /\ y' == y / inject_Z height /\
    w' == w / inject_Z width /\ h' == h / inject_Z height.
Proof.
  intros Pw Ph [X0 X1] [W0 W1] [Y0 Y1] [H0 H1].
  unfold normalize_bbox. simpl py_slice.
  change (py_not _ || _) with false. cbv iota.
  cbn [mapM py_float bind]. rewrite rectify_bbox_cases.
  apply Qltb_ge in W0 as Ew. apply Qltb_ge in H0 as Eh. rewrite Ew, Eh.
  cbn [negb]. cbv iota.
  rewrite !py_div_ok by (apply inject_Z_nonzero; lia). cbn [bind].
  do 4 eexists. split; [reflexivity |].
  assert (C : forall (v : Q) (d : Z), (0 < d)%Z -> 0 <= v <= inject_Z d ->
                clamp01 (v / inject_Z d) == v / inject_Z d).
  { intros v d Hd [V0 V1].
    assert (D : 0 < inject_Z d) by (unfold Qlt; simpl; lia).
    assert (L : 0 <= v / inject_Z d)
      by (apply Qle_shift_div_l; [exact D | now rewrite Qmult_0_l]).
    assert (U : v / inject_Z d <= 1)
      by (apply Qle_shift_div_r; [exact D | now rewrite Qmult_1_l]).
    unfold clamp01. rewrite (Q.min_r 1 _ U). now apply Q.max_r. }
  repeat split; apply C; auto.
Qed.

(** ** The classifier's other labels *)

(** A run of [analyze_gaze] that returns, reduced to its label record. *)
Ltac analyze_gaze_ok :=
  analyze_gaze_run;
  destruct (_ <? 0) eqn:?FS; [discriminate |];
  destruct (if 0.2 >? 0 then _ else _) as [?ppm | ?]; [| discriminate];
  cbn [bind];
  match goal with
  | |- context [Qeq_bool ?p 0] => destruct (Qeq_bool p 0); [discriminate |]
  end;
  intros [= <-];
  cbn [a_target_type a_farther_closer a_scale a_object_detection
       a_focal_point].








(** X13: the focal point of a run that returns is one of seventeen
    labels, nine inside the frame and eight outside; the bare label
    ["out-of-frame"] is never produced. *)
Theorem focal_point_labels (bbox : BBox) (gaze : Point)
    (width height : Z) (r : Analysis) :
  analyze_gaze bbox gaze width height = Ok r ->
  In (a_focal_point r) focal_labels /\ a_focal_point r <> "out-of-frame".
Proof.
  analyze_gaze_ok.
  assert (L : forall s, In s focal_labels -> s <> "out-of-frame").
  { intros s H E. subst s. simpl in H.
    repeat (destruct H as [H | H]; [discriminate H |]). exact H. }
  match goal with
  | |- In ?f _ /\ _ => assert (I : In f focal_labels)
  end.
  { destruct (gx <? 0), (gx >? 1), (gy <? 0), (gy >? 1);
      cbn [orb];
      try (cbv; tauto);
      destruct (gx <? 0.3333), (gx >? 0.6667),
               (gy <? 0.3333), (gy >? 0.6667); cbv; tauto. }
  split; [exact I | exact (L _ I)].
Qed.

(** ** The assembler's records *)

Lemma assign_numbers_bbox (anns : list Annotation) :
  forall i, map bbox (assign_numbers i anns) = map bbox anns.
Proof.
  induction anns as [| a anns IH]; intro i; simpl; [| rewrite IH];
    reflexivity.
Qed.

Lemma append_gazes_bbox (b : BBox) (is_gf : bool) (width height : Z)
    (gazes : list pyseq) :
  forall anns out,
    append_gazes b is_gf width height anns gazes = Ok out ->
    Forall (fun a => bbox a = b) anns ->
    Forall (fun a => bbox a = b) out.
Proof.
  induction gazes as [| g gazes IH]; intros anns out H F.
  - now injection H as <-.
  - cbn [append_gazes] in H.
    apply bind_ok in H. destruct H as (gp & _ & H).
    apply bind_ok in H. destruct H as (a & Ha & H).
    apply (IH _ _ H). apply Forall_app. split; [exact F |].
    constructor; [| constructor]. now apply make_ann_gaze in Ha.
Qed.

(** X16: all the records returned for one item carry the same box, the
    normalised box of the item, whose components lie in [[0, 1]]. *)
Theorem build_annotations_shared_bbox (item : Item)
    (anns : list Annotation) :
  build_annotations item = Ok anns ->
  exists p width height b,
    resolve_image_full_path item = Ok (p, width, height) /\
    normalize_bbox (item_bbox item) (is_gazefollow (item_path item))
                   width height = Ok b /\
    in_unit_box b /\
    Forall (fun a => bbox a = b) anns.
Proof.
  unfold build_annotations. intro H.
  apply bind_ok in H. destruct H as ([[p width] height] & Hres & H).
  apply bind_ok in H. destruct H as (b & Hb & H).
  apply bind_ok in H. destruct H as (eye & _ & H).
  apply bind_ok in H. destruct H as (g & _ & H).
  apply bind_ok in H. destruct H as (a & Ha & H).
  apply bind_ok in H. destruct H as (anns1 & H1 & H).
  apply bind_ok in H. destruct H as (anns2 & H2 & [= <-]).
  exists p, width, height, b.
  split; [exact Hres |]. split; [exact Hb |].
  split; [exact (normalize_bbox_in_unit _ _ _ _ _ Hb) |].
  apply make_ann_gaze in Ha. destruct Ha as [_ Ba].
  assert (F1 : Forall (fun a => bbox a = b) anns1).
  { destruct (sqrt_gtb (dist2 g eye) 0.05).
    - apply bind_ok in H1. destruct H1 as (e & He & [= <-]).
      apply make_ann_gaze in He. destruct He as [_ Be].
      repeat constructor; assumption.
    - injection H1 as <-. repeat constructor; assumption. }
  assert (F2 : Forall (fun a => bbox a = b) anns2).
  { destruct (item_gazes item) as [gazes |].
    - exact (append_gazes_bbox _ _ _ _ _ _ _ H2 F1).
    - now injection H2 as <-. }
  apply Forall_forall. intros a' Ha'.
  apply (in_map bbox) in Ha'. rewrite assign_numbers_bbox in Ha'.
  apply in_map_iff in Ha'. destruct Ha' as (a0 & E & I).
  rewrite <- E. rewrite Forall_forall in F2. now apply F2.
Qed.

(** * Dataset files *)

(** ** find_image_file *)

Lemma matches_reflect (filename file : string) :
  (file =? filename) || (fst (splitext file) =? fst (splitext filename))
  = true <-> matches filename file.
Proof.
  unfold matches. rewrite orb_true_iff, !String.eqb_eq. reflexivity.
Qed.

Lemma find_in_files_some (root filename : string) (files : list string)
    (p : string) :
  find_in_files root filename (fst (splitext filename)) files = Some p ->
  exists fs1 file fs2,
    files = (fs1 ++ file :: fs2)%list /\ p = path_join root file /\
    matches filename file /\
    (forall x, In x fs1 -> ~ matches filename x).
Proof.
  induction files as [| file files IH]; simpl; [discriminate |].
  destruct (_ || _) eqn:M.
  - intros [= <-]. exists [], file, files.
    repeat split; [now apply matches_reflect | intros x []].
  - intro H. destruct (IH H) as (fs1 & f & fs2 & -> & -> & Mf & N).
    exists (file :: fs1), f, fs2. repeat split; [exact Mf |].
    intros x [<- | Hx]; [| now apply N].
    intro Mx. apply matches_reflect in Mx. congruence.
Qed.

Lemma find_in_files_none (root filename : string) (files : list string) :
  find_in_files root filename (fst (splitext filename)) files = None <->
  forall x, In x files -> ~ matches filename x.
Proof.
  induction files as [| file files IH]; simpl.
  - split; [intros _ x [] | reflexivity].
  - destruct (_ || _) eqn:M.
    + split; [discriminate |]. intro H. exfalso.
      apply (H file); [now left | now apply matches_reflect].
    + rewrite IH. split.
      * intros H x [<- | Hx]; [| now apply H].
        intro Mx. apply matches_reflect in Mx. congruence.
      * intros H x Hx. apply H. now right.
Qed.

(** X19: [find_image_file] returns the first file, in the order of the
    walk, that has the name asked for or the same stem, joined to its
    directory. *)
Theorem find_image_file_first_match (base_dir filename p : string) :
  find_image_file base_dir filename = Some p ->
  exists w1 root dirs fs1 file fs2 w2,
    walk base_dir =
    (w1 ++ (root, dirs, (fs1 ++ file :: fs2)%list) :: w2)%list /\
    p = path_join root file /\
    matches filename file /\
    (forall x, In x fs1 -> ~ matches filename x) /\
    (forall r ds fs x, In (r, ds, fs) w1 -> In x fs -> ~ matches filename x).
Proof.
  unfold find_image_file. cbv zeta.
  induction (walk base_dir) as [| [[root dirs] files] w IH]; simpl;
    [discriminate |].
  destruct (find_in_files root filename _ files) as [q |] eqn:F.
  - intros [= ->].
    destruct (find_in_files_some _ _ _ _ F)
      as (fs1 & file & fs2 & -> & -> & M & N).
    exists [], root, dirs, fs1, file, fs2, w.
    repeat split; [exact M | exact N | intros r ds fs x []].
  - intro H.
    destruct (IH H) as (w1 & r0 & d0 & fs1 & file & fs2 & w2 &
                        -> & -> & M & N1 & N2).
    exists ((root, dirs, files) :: w1), r0, d0, fs1, file, fs2, w2.
    repeat split; [exact M | exact N1 |].
    intros r ds fs x [[= <- <- <-] | Hin] Hx.
    + now apply (proj1 (find_in_files_none _ _ _) F).
    + now apply (N2 r ds fs).
Qed.

Lemma find_in_walk_none (filename : string)
    (w : list (string * list string * list string)) :
  find_in_walk filename (fst (splitext filename)) w = None <->
  forall r ds fs x, In (r, ds, fs) w -> In x fs -> ~ matches filename x.
Proof.
  induction w as [| [[root dirs] files] w IH]; simpl.
  - split; [intros _ r ds fs x [] | reflexivity].
  - destruct (find_in_files root filename _ files) as [q |] eqn:F.
    + split; [discriminate |]. intro H. exfalso.
      destruct (find_in_files_some _ _ _ _ F)
        as (fs1 & file & fs2 & -> & _ & M & _).
      apply (H root dirs (fs1 ++ file :: fs2)%list file);
        [now left | apply in_elt | exact M].
    + rewrite IH. split.
      * intros H r ds fs x [[= <- <- <-] | Hin] Hx.
        -- now apply (proj1 (find_in_files_none _ _ _) F).
        -- now apply (H r ds fs).
      * intros H r ds fs x Hin. apply (H r ds fs). now right.
Qed.

(** X20: [find_image_file] returns [None] exactly when no file listed
    under the directory has the name asked for or its stem. *)
Theorem find_image_file_none_iff (base_dir filename : string) :
  find_image_file base_dir filename = None <->
  forall root file, listed base_dir root file -> ~ matches filename file.
Proof.
  unfold find_image_file, listed. cbv zeta. rewrite find_in_walk_none.
  split.
  - intros H r f (ds & fs & Hin & Hf). now apply (H r ds fs).
  - intros H r ds fs x Hin Hx. apply (H r x). now exists ds, fs.
Qed.

(** ** resolve_image_full_path on the file system *)

Lemma find_image_file_listed (base_dir filename p : string) :
  find_image_file base_dir filename = Some p ->
  exists root file,
    listed base_dir root file /\ matches filename file /\
    p = path_join root file.
Proof.
  unfold find_image_file, listed. cbv zeta.
  induction (walk base_dir) as [| [[root dirs] files] w IH]; simpl;
    [discriminate |].
  destruct (find_in_files root filename _ files) as [q |] eqn:F.
  - intros [= ->].
    destruct (find_in_files_some _ _ _ _ F)
      as (fs1 & file & fs2 & -> & -> & M & _).
    exists root, file. repeat split; [| exact M].
    exists dirs, (fs1 ++ file :: fs2)%list. split; [now left | apply in_elt].
  - intro H. destruct (IH H) as (r & f & (ds & fs & Hin & Hf) & M & ->).
    exists r, f. repeat split; [| exact M].
    exists ds, fs. split; [now right | exact Hf].
Qed.

Lemma gazefollow_test_commutes (p : string) :
  String.prefix "test2/" p || String.prefix "train/" p = is_gazefollow p.
Proof.
  unfold is_gazefollow. apply orb_comm.
Qed.

(** X21: outside GazeFollow, when the search for the file name finds
    nothing, the retry with the stem and [".jpg"] finds nothing either,
    provided that name has the same stem, and [FileNotFoundError] is
    raised. *)
Theorem resolve_image_not_found (GF_ROOT VAT_ROOT : string) (item : Item) :
  let filename := basename (item_path item) in
  let retry := fst (splitext filename) ++ ".jpg" in
  is_gazefollow (item_path item) = false ->
  fst (splitext retry) = fst (splitext filename) ->
  find_image_file VAT_ROOT filename = None ->
  find_image_file VAT_ROOT retry = None /\
  resolve_image_on_disk GF_ROOT VAT_ROOT item = Raise FileNotFoundError.
Proof.
  intros filename retry NG St F.
  assert (F' : find_image_file VAT_ROOT retry = None).
  { unfold find_image_file in *. cbv zeta in *.
    rewrite find_in_walk_none in *.
    intros r ds fs x Hin Hx [E | E]; apply (F r ds fs x Hin Hx).
    - right. now rewrite E.
    - right. now rewrite E. }
  split; [exact F' |].
  unfold resolve_image_on_disk. cbv zeta.
  rewrite gazefollow_test_commutes, NG.
  fold filename. fold retry. rewrite F, F'. reflexivity.
Qed.

Lemma set_mem_in (s : string) (l : list string) :
  set_mem s l = true <-> In s l.
Proof.
  unfold set_mem. rewrite existsb_exists. split.
  - intros (x & Hx & E). apply String.eqb_eq in E. now subst.
  - intro H. exists s. split; [exact H | apply String.eqb_refl].
Qed.

Lemma vat_basenames_listed (GF_ROOT VAT_ROOT file : string) :
  In file (snd (collect_merged_sets GF_ROOT VAT_ROOT)) <->
  exists root, listed VAT_ROOT root file.
Proof.
  unfold collect_merged_sets, listed. simpl snd.
  rewrite in_flat_map. split.
  - intros ([[root dirs] files] & Hin & Hf). now exists root, dirs, files.
  - intros (root & dirs & files & Hin & Hf).
    now exists (root, dirs, files).
Qed.

Lemma gf_rel_paths_listed (GF_ROOT VAT_ROOT p : string) :
  In p (fst (collect_merged_sets GF_ROOT VAT_ROOT)) <->
  exists root file,
    listed GF_ROOT root file /\
    from_os_sep (relpath (path_join root file) GF_ROOT) = p.
Proof.
  unfold collect_merged_sets, listed. simpl fst.
  rewrite in_flat_map. split.
  - intros ([[root dirs] files] & Hin & Hf).
    apply in_map_iff in Hf. destruct Hf as (f & E & Hf).
    exists root, f. split; [now exists dirs, files | exact E].
  - intros (root & f & (dirs & files & Hin & Hf) & E).
    exists (root, dirs, files). split; [exact Hin |].
    apply in_map_iff. now exists f.
Qed.

Lemma select_available_filter (gf_set vat_set : list string)
    (l : list Item) :
  select_available gf_set vat_set l =
  filter (fun item =>
            if is_gazefollow (item_path item)
            then set_mem (item_path item) gf_set
            else set_mem (basename (item_path item)) vat_set) l.
Proof.
  induction l as [| item l IH]; simpl; [reflexivity |].
  fold (is_gazefollow (item_path item)).
  destruct (is_gazefollow (item_path item));
    destruct (set_mem _ _); now rewrite IH.
Qed.

(** X22: [load_available_images] keeps, in the order of the manifest,
    exactly the items whose image is in the merged set (by relative path
    for GazeFollow, by file name otherwise); a manifest that cannot be
    loaded gives the empty list. *)
Theorem load_available_images_spec (GF_ROOT VAT_ROOT : string) :
  load_available_images GF_ROOT VAT_ROOT None = [] /\
  forall l,
    (exists keep,
       load_available_images GF_ROOT VAT_ROOT (Some l) = filter keep l) /\
    (forall item,
       In item (load_available_images GF_ROOT VAT_ROOT (Some l)) <->
       In item l /\ backed GF_ROOT VAT_ROOT item).
Proof.
  split; [reflexivity |]. intro l.
  unfold load_available_images.
  destruct (collect_merged_sets GF_ROOT VAT_ROOT) as [gf_set vat_set] eqn:C.
  rewrite select_available_filter. split; [eauto |].
  intro item. rewrite filter_In. unfold backed.
  pose proof (gf_rel_paths_listed GF_ROOT VAT_ROOT (item_path item)) as G.
  pose proof (vat_basenames_listed GF_ROOT VAT_ROOT
                (basename (item_path item))) as V.
  rewrite C in G, V. simpl in G, V.
  destruct (is_gazefollow (item_path item)); rewrite set_mem_in.
  - now rewrite G.
  - now rewrite V.
Qed.

(** X23: an item outside GazeFollow that [load_available_images] keeps
    is always resolved to a listed file with its name or stem, when the
    listed files exist: [resolve_image_full_path] then goes on to read
    the image size and does not raise [FileNotFoundError]. *)
Theorem available_item_is_found (GF_ROOT VAT_ROOT : string)
    (all_images : option (list Item)) (item : Item) :
  (forall root file,
     listed VAT_ROOT root file ->
     path_exists (path_join root file) = true /\
     path_join root file <> EmptyString) ->
  In item (load_available_images GF_ROOT VAT_ROOT all_images) ->
  is_gazefollow (item_path item) = false ->
  exists root file,
    listed VAT_ROOT root file /\
    matches (basename (item_path item)) file /\
    resolve_image_on_disk GF_ROOT VAT_ROOT item =
    ('(width, height) <- image_size (path_join root file) ;;
     Ok (path_join root file, width, height)).
Proof.
  intros Disk Hin NG.
  assert (L : exists root, listed VAT_ROOT root (basename (item_path item))).
  { destruct all_images as [l |]; [| contradiction].
    unfold load_available_images in Hin.
    destruct (collect_merged_sets GF_ROOT VAT_ROOT)
      as [gf_set vat_set] eqn:C.
    rewrite select_available_filter, filter_In, NG, set_mem_in in Hin.
    destruct Hin as [_ Hin].
    apply (vat_basenames_listed GF_ROOT VAT_ROOT). now rewrite C. }
  destruct L as (root0 & L).
  destruct (find_image_file VAT_ROOT (basename (item_path item)))
    as [q |] eqn:F.
  - destruct (find_image_file_listed _ _ _ F) as (root & file & Lf & M & ->).
    exists root, file. split; [exact Lf |]. split; [exact M |].
    destruct (Disk root file Lf) as [Ex Ne].
    unfold resolve_image_on_disk. cbv zeta.
    rewrite gazefollow_test_commutes, NG, F. unfold py_or.
    apply String.eqb_neq in Ne. rewrite Ne. cbv beta iota.
    rewrite Ne, Ex. reflexivity.
  - exfalso. unfold find_image_file in F. cbv zeta in F.
    rewrite find_in_walk_none in F.
    destruct L as (dirs & files & Hw & Hf).
    apply (F root0 dirs files _ Hw Hf). now left.
Qed.

(** * The session loop *)

Lemma annotate_all_spec (items : list Item) :
  forall log0 idx log e,
    annotate_all log0 idx items = (log, e) ->
    exists new,
      log = (log0 ++ new)%list /\
      map fst new = seq idx (List.length new) /\
      (List.length new <= List.length items)%nat /\
      (forall k i anns,
         nth_error new k = Some (i, anns) ->
         exists item, nth_error items k = Some item /\
                      build_annotations item = Ok anns) /\
      (e = Finished -> List.length new = List.length items) /\
      (forall i s, e = PostFailed i s ->
         status_ok s = false /\
         exists prev anns, new = (prev ++ [(i, anns)])%list /\
                           s = post (log0 ++ prev)%list i anns) /\
      (forall ex, e = Crashed ex ->
         exists item, nth_error items (List.length new) = Some item /\
                      build_annotations item = Raise ex) /\
      (forall prev i anns rest,
         new = (prev ++ (i, anns) :: rest)%list ->
         rest <> [] \/ (forall i' s, e <> PostFailed i' s) ->
         status_ok (post (log0 ++ prev)%list i anns) = true).
Proof.
  induction items as [| item items IH]; intros log0 idx log e H.
  - injection H as <- <-. exists [].
    rewrite app_nil_r. repeat split; try discriminate; try reflexivity.
    + intros [| k] i anns Hk; discriminate Hk.
    + intros [| ? ?] i anns rest Hn; discriminate Hn.
  - cbn [annotate_all] in H.
    destruct (build_annotations item) as [anns0 | ex0] eqn:B.
    + cbv zeta in H.
      destruct (status_ok (post log0 idx anns0)) eqn:S; cbn [negb] in H.
      * apply IH in H.
        destruct H as (new & -> & Hidx & Hlen & Hpay & Hfin & Hfail &
                       Hcrash & Hacc).
        exists ((idx, anns0) :: new).
        split; [now rewrite <- app_assoc |].
        split; [simpl; now rewrite Hidx |].
        split; [simpl; lia |].
        split.
        { intros [| k] i anns Hk.
          - injection Hk as <- <-. now exists item.
          - now apply (Hpay k i anns). }
        split; [intro E; simpl; now rewrite (Hfin E) |].
        split.
        { intros i s E. destruct (Hfail i s E) as (Hs & prev & anns & -> & ->).
          split; [exact Hs |].
          exists ((idx, anns0) :: prev), anns.
          split; [reflexivity | now rewrite <- app_assoc]. }
        split; [intros ex E; exact (Hcrash ex E) |].
        intros [| [i0 a0] prev] i anns rest Hn Hc.
        { injection Hn as <- <- _. now rewrite app_nil_r. }
        injection Hn as <- <- Hn.
        specialize (Hacc prev i anns rest Hn Hc).
        now rewrite <- app_assoc in Hacc.
      * injection H as <- <-. exists [(idx, anns0)].
        repeat split; try discriminate; try reflexivity.
        -- simpl. lia.
        -- intros [| [| k]] i anns Hk; try discriminate Hk.
           injection Hk as <- <-. now exists item.
        -- injection H as <- <-. exact S.
        -- injection H as <- <-. exists [], anns0.
           now rewrite app_nil_r.
        -- intros [| ? [| ? ?]] i anns rest Hn Hc; try discriminate Hn.
           injection Hn as <- <- <-.
           destruct Hc as [Hc | Hc]; [contradiction | ].
           exfalso. exact (Hc idx (post log0 idx anns0) eq_refl).
    + injection H as <- <-. exists [].
      rewrite app_nil_r. repeat split; try discriminate; try reflexivity.
      * simpl. lia.
      * intros [| k] i anns Hk; discriminate Hk.
      * intros ex [= <-]. now exists item.
      * intros [| ? ?] i anns rest Hn; discriminate Hn.
Qed.

Lemma nth_error_firstn_some {A : Type} (n k : nat) (l : list A) (a : A) :
  nth_error (firstn n l) k = Some a -> nth_error l k = Some a.
Proof.
  revert k l. induction n as [| n IH]; intros k l H.
  - destruct k; discriminate H.
  - destruct l as [| x l]; [destruct k; discriminate H |].
    destruct k as [| k]; [exact H | simpl in H |- *; now apply IH].
Qed.

(** What [main] does before its loop. *)
Lemma main_unfold (GF_ROOT VAT_ROOT : string)
    (all_images : option (list Item)) (requests : bool)
    (init_status page_status : Z) (page_total : option nat) :
  let available := load_available_images GF_ROOT VAT_ROOT all_images in
  let total := Nat.min (List.length available)
                       (session_total page_status page_total) in
  main GF_ROOT VAT_ROOT all_images requests init_status page_status
       page_total =
  if requests && status_ok init_status
  then annotate_all [] 0 (firstn total available)
  else ([], Finished).
Proof.
  cbv zeta. unfold main, session_total.
  destruct (load_available_images GF_ROOT VAT_ROOT all_images)
    as [| item rest].
  - simpl. now destruct (requests && status_ok init_status).
  - destruct requests; [| reflexivity].
    destruct (status_ok init_status); reflexivity.
Qed.

(** X24: the POSTs of [main] carry the image indices 0, 1, 2, ... in
    order, each with the annotations built for the available image of
    that index; there are at most min(number of available images,
    session total) of them, the session total being 500 when the first
    label page does not tell it; and none at all without [requests] or
    when the first GET is not answered 200 or 302. *)
Theorem main_posts (GF_ROOT VAT_ROOT : string)
    (all_images : option (list Item)) (requests : bool)
    (init_status page_status : Z) (page_total : option nat)
    (log : Log) (e : ending) :
  let available := load_available_images GF_ROOT VAT_ROOT all_images in
  main GF_ROOT VAT_ROOT all_images requests init_status page_status
       page_total = (log, e) ->
  map fst log = seq 0 (List.length log) /\
  (List.length log <=
   Nat.min (List.length available)
           (session_total page_status page_total))%nat /\
  (forall k i anns,
     nth_error log k = Some (i, anns) ->
     exists item, nth_error available k = Some item /\
                  build_annotations item = Ok anns) /\
  (requests = false \/ status_ok init_status = false -> log = []).
Proof.
  cbv zeta. rewrite main_unfold. cbv zeta.
  destruct (requests && status_ok init_status) eqn:G.
  - intro H. apply annotate_all_spec in H.
    destruct H as (new & -> & Hidx & Hlen & Hpay & _).
    simpl app. split; [exact Hidx |].
    split; [rewrite length_firstn in Hlen; lia |].
    split.
    + intros k i anns Hk. destruct (Hpay k i anns Hk) as (item & Hi & B).
      exists item. split; [now apply nth_error_firstn_some in Hi | exact B].
    + apply andb_true_iff in G. destruct G as [-> ->].
      intros [H | H]; discriminate H.
  - intros [= <- <-]. repeat split; try reflexivity.
    + simpl. lia.
    + intros [| k] i anns Hk; discriminate Hk.
Qed.

(** X25: a POST answered neither 200 nor 302 is the last one of the
    run: it carries the index of its position, every POST before it was
    accepted, and no later image is sent. *)
Theorem main_refused_post_is_last (GF_ROOT VAT_ROOT : string)
    (all_images : option (list Item)) (requests : bool)
    (init_status page_status : Z) (page_total : option nat)
    (log : Log) (idx : nat) (status : Z) :
  main GF_ROOT VAT_ROOT all_images requests init_status page_status
       page_total = (log, PostFailed idx status) ->
  status_ok status = false /\
  exists prev anns,
    log = (prev ++ [(idx, anns)])%list /\ idx = List.length prev /\
    status = post prev idx anns /\
    forall before i a rest,
      prev = (before ++ (i, a) :: rest)%list ->
      status_ok (post before i a) = true.
Proof.
  rewrite main_unfold. cbv zeta.
  destruct (requests && status_ok init_status); [| discriminate].
  intro H. apply annotate_all_spec in H.
  destruct H as (new & -> & Hidx & _ & _ & _ & Hfail & _ & Hacc).
  destruct (Hfail idx status eq_refl) as (Hs & prev & anns & -> & ->).
  split; [exact Hs |]. exists prev, anns. simpl app.
  split; [reflexivity |]. split.
  - rewrite map_app, length_app, seq_app in Hidx. simpl in Hidx.
    apply app_inj_tail_iff in Hidx. now destruct Hidx.
  - split; [reflexivity |].
    intros before i a rest ->.
    apply (Hacc before i a (rest ++ [(idx, anns)])%list).
    + now rewrite <- app_assoc.
    + left. now destruct rest.
Qed.

(** X26: an exception of [build_annotations] ends the run at that image:
    it is the available image whose index is the number of POSTs made,
    all accepted, and nothing is sent for it or after it. *)
Theorem main_crash (GF_ROOT VAT_ROOT : string)
    (all_images : option (list Item)) (requests : bool)
    (init_status page_status : Z) (page_total : option nat)
    (log : Log) (ex : exn) :
  let available := load_available_images GF_ROOT VAT_ROOT all_images in
  main GF_ROOT VAT_ROOT all_images requests init_status page_status
       page_total = (log, Crashed ex) ->
  (exists item,
     nth_error available (List.length log) = Some item /\
     build_annotations item = Raise ex) /\
  (List.length log < session_total page_status page_total)%nat /\
  forall before i a rest,
    log = (before ++ (i, a) :: rest)%list ->
    status_ok (post before i a) = true.
Proof.
  cbv zeta. rewrite main_unfold. cbv zeta.
  destruct (requests && status_ok init_status); [| discriminate].
  intro H. apply annotate_all_spec in H.
  destruct H as (new & -> & _ & _ & _ & _ & _ & Hcrash & Hacc).
  destruct (Hcrash ex eq_refl) as (item & Hi & B). simpl app.
  split; [| split].
  - exists item. split; [now apply nth_error_firstn_some in Hi | exact B].
  - assert (L : nth_error (firstn
                   (Nat.min (List.length
                      (load_available_images GF_ROOT VAT_ROOT all_images))
                      (session_total page_status page_total))
                   (load_available_images GF_ROOT VAT_ROOT all_images))
                  (List.length new) <> None) by (now rewrite Hi).
    apply nth_error_Some in L. rewrite length_firstn in L. lia.
  - intros before i a rest E.
    apply (Hacc before i a rest E). right. discriminate.
Qed.

End Engine.

(** * The engine on concrete inputs *)

(** C3: an item outside GazeFollow that provides no gaze has its eye
    normalised twice: for an eye at pixel (100, 50) of a 200 x 100 image
    the eye is (0.5, 0.5), the primary gaze is (0.0025, 0.005), and a
    secondary record for the eye is emitted. *)
Theorem vat_item_without_gaze_normalized_twice
    (float_of_str : string -> option Q) :
  item_gaze vat_item_no_gaze = None /\
  exists a1 a2,
    build_annotations float_of_str (found 200 100) vat_item_no_gaze =
    Ok [a1; a2] /\
    normalize_point float_of_str (item_eye vat_item_no_gaze) false 200 100 =
    Ok (gaze a2) /\
    fst (gaze a2) == 0.5 /\ snd (gaze a2) == 0.5 /\
    fst (gaze a1) == 0.0025 /\ snd (gaze a1) == 0.005 /\
    ~ fst (gaze a1) == fst (gaze a2).
Proof.
  split; [reflexivity |].
  do 2 eexists. split; [vm_compute; reflexivity |].
  cbn [gaze]. repeat split; discriminate.
Qed.

(** The same box makes the two normalisers disagree: the point is
    defaulted, the box raises. *)
Example normalize_bad_box :
  normalize_bbox no_str_float (Some bad_box) true 640 480 = Raise ValueError /\
  normalize_point no_str_float (Some bad_box) true 640 480 = Ok default_point.
Proof.
  split; reflexivity.
Qed.

(** C4, with thresholds at exactly 1/3 and 2/3: at [gx = 0.3333] the
    code answers ["center"], and no label of the split at 1/3 and 2/3 is
    ["center"] there, since [0.3333 < 1/3] makes the horizontal word
    ["left"]. *)
Lemma focal_point_thirds_counterexample :
  exists r,
    analyze_gaze (0.3, 0.3, 0.2, 0.2) (0.3333, 0.5) 100 100 = Ok r /\
    in_unit 0.3333 /\ in_unit 0.5 /\
    a_focal_point r = "center" /\
    ~ grid_spec (1 # 3) (2 # 3) 0.3333 0.5 (a_focal_point r).
Proof.
  eexists. split; [vm_compute; reflexivity |].
  split; [split; discriminate |]. split; [split; discriminate |].
  split; [reflexivity |].
  cbn [a_focal_point].
  intros (horiz & vert & H1 & _ & _ & _ & _ & V3 & J).
  assert (Hl : horiz = "left") by (apply H1; reflexivity).
  assert (Vm : vert = "middle") by (apply V3; split; discriminate).
  subst horiz vert. discriminate J.
Qed.

(** ** Instances of the theorems above *)

Lemma normalize_bbox_non_numeric_raises_witness :
  (4 <= List.length bad_box)%nat /\
  Exists (fun v => ~ numeric no_str_float v) (firstn 4 bad_box) /\
  raises (normalize_bbox no_str_float (Some bad_box) true 640 480).
Proof.
  assert (L : (4 <= List.length bad_box)%nat) by (simpl; lia).
  assert (E : Exists (fun v => ~ numeric no_str_float v) (firstn 4 bad_box)).
  { apply Exists_cons_hd. intros [q H]. discriminate H. }
  split; [exact L |]. split; [exact E |].
  exact (normalize_bbox_non_numeric_raises no_str_float bad_box true
           640 480 L E).
Defined.

Lemma analyze_gaze_zero_face_width_raises_witness :
  fst (face_size_px (0.3, 0.3, 0, 0.2) 100 100) == 0 /\
  analyze_gaze (0.3, 0.3, 0, 0.2) (0.5, 0.5) 100 100 =
  Raise ZeroDivisionError.
Proof.
  assert (Z0 : fst (face_size_px (0.3, 0.3, 0, 0.2) 100 100) == 0)
    by reflexivity.
  split; [exact Z0 |].
  exact (analyze_gaze_zero_face_width_raises
           (0.3, 0.3, 0, 0.2) (0.5, 0.5) 100 100 Z0).
Defined.

Lemma unit_box_example : in_unit_box (0.3, 0.3, 0.2, 0.2).
Proof.
  repeat split; discriminate.
Defined.

Lemma face_width_example :
  ~ fst (face_size_px (0.3, 0.3, 0.2, 0.2) 100 100) == 0.
Proof.
  discriminate.
Defined.

Lemma focal_point_grid_witness :
  in_unit_box (0.3, 0.3, 0.2, 0.2) /\ (0 < 100)%Z /\
  ~ fst (face_size_px (0.3, 0.3, 0.2, 0.2) 100 100) == 0 /\
  in_unit 0.2 /\ in_unit 0.8 /\
  exists r, analyze_gaze (0.3, 0.3, 0.2, 0.2) (0.2, 0.8) 100 100 = Ok r /\
            grid_spec 0.3333 0.6667 0.2 0.8 (a_focal_point r).
Proof.
  assert (X : in_unit 0.2) by (split; discriminate).
  assert (Y : in_unit 0.8) by (split; discriminate).
  assert (P : (0 < 100)%Z) by reflexivity.
  split; [exact unit_box_example |]. split; [exact P |].
  split; [exact face_width_example |]. split; [exact X |].
  split; [exact Y |].
  exact (focal_point_grid (0.3, 0.3, 0.2, 0.2) 0.2 0.8 100 100
           unit_box_example P P face_width_example X Y).
Defined.


Lemma normalized_box_in_unit_point_unclamped_witness :
  exists b,
    normalize_bbox no_str_float
      (Some [PNum 10; PNum 20; PNum (-5); PNum 700]) false 100 100 = Ok b /\
    in_unit_box b /\
    normalize_point no_str_float (Some [PNum 1.5; PNum (-0.2)]) true 0 0 =
    Ok (1.5, -0.2).
Proof.
  assert (Wb : well_formed no_str_float 4
                 (Some [PNum 10; PNum 20; PNum (-5); PNum 700])).
  { eexists. split; [reflexivity |]. split; [simpl; lia |].
    repeat constructor; eexists; reflexivity. }
  assert (Wp : well_formed no_str_float 2
                 (Some [PNum 1.5; PNum (-0.2)])).
  { eexists. split; [reflexivity |]. split; [simpl; lia |].
    repeat constructor; eexists; reflexivity. }
  assert (P : (0 < 100)%Z) by reflexivity.
  destruct (normalized_box_in_unit_point_unclamped no_str_float)
    as [Box Pt].
  destruct (Box _ false 100%Z 100%Z Wb P P) as (b & Hb & U).
  destruct (Pt _ 0%Z 0%Z Wp)
    as (a0 & b0 & rest & px & py & Hs & Hx & Hy & Hp).
  exists b. split; [exact Hb |]. split; [exact U |].
  injection Hs as <- <- <-. injection Hx as <-. injection Hy as <-.
  exact Hp.
Defined.

(** ** Instances of the further properties *)

Lemma normalize_point_malformed_witness :
  malformed no_str_float 2 (Some [PStr "x"; PNum 1]) /\
  normalize_point no_str_float (Some [PStr "x"; PNum 1]) false 0 0 =
  Ok default_point.
Proof.
  assert (M : malformed no_str_float 2 (Some [PStr "x"; PNum 1])).
  { right. eexists. split; [reflexivity |]. right.
    apply Exists_cons_hd. intros [q H]. discriminate H. }
  split; [exact M |].
  exact (normalize_point_malformed no_str_float _ false 0 0 M).
Defined.

Lemma normalize_bbox_short_witness :
  normalize_bbox no_str_float (Some [PNum 1; PNum 2; PNum 3]) false 0 0 =
  Ok default_bbox.
Proof.
  apply normalize_bbox_short. right. eexists. split; [reflexivity |].
  simpl. lia.
Defined.

Lemma normalize_point_pixel_space_witness :
  exists nx ny,
    normalize_point no_str_float (Some [PNum (-7); PNum 50]) false 200 100 =
    Ok (nx, ny) /\ nx = -0.05 /\ ny = 50 / inject_Z 100 /\ in_unit ny.
Proof.
  destruct (normalize_point_pixel_space no_str_float (PNum (-7)) (PNum 50)
              [] (-7) 50 200 100 eq_refl eq_refl)
    as (nx & ny & E & X1 & _ & _ & Y2 & _ & Y3); try discriminate.
  exists nx, ny. split; [exact E |].
  split; [apply X1; reflexivity |].
  split; [apply Y2; discriminate |].
  apply Y3; [reflexivity | split; discriminate].
Defined.

Lemma normalize_bbox_renormalize_witness :
  exists b,
    normalize_bbox no_str_float
      (Some [PNum 10; PNum 20; PNum (-5); PNum 700]) false 100 100 = Ok b /\
    let '(x, y, w, h) := b in
    normalize_bbox no_str_float (Some [PNum x; PNum y; PNum w; PNum h])
                   true 1 1 = Ok b.
Proof.
  eexists. split; [vm_compute; reflexivity |].
  cbv beta iota.
  refine (normalize_bbox_renormalize no_str_float
            (Some [PNum 10; PNum 20; PNum (-5); PNum 700])
            false 100 100 1 1 _ _ _ _ _).
  vm_compute. reflexivity.
Defined.

Lemma normalize_bbox_rectified_witness :
  normalize_bbox no_str_float
    (Some [PNum 5; PNum 1; PNum (-2); PNum 3]) false 10 10 =
  normalize_bbox no_str_float
    (Some [PNum (5 + -2); PNum 1; PNum (- -2); PNum 3]) false 10 10.
Proof.
  exact (normalize_bbox_rectified no_str_float 5 1 (-2) 3 _ _ _ _
           false 10 10 eq_refl).
Defined.

Lemma normalize_bbox_inside_image_witness :
  exists x' y' w' h',
    normalize_bbox no_str_float
      (Some [PNum 20; PNum 10; PNum 50; PNum 50]) false 200 100 =
    Ok (x', y', w', h') /\
    x' == 20 / inject_Z 200 /\ y' == 10 / inject_Z 100 /\
    w' == 50 / inject_Z 200 /\ h' == 50 / inject_Z 100.
Proof.
  apply normalize_bbox_inside_image;
    first [reflexivity | split; discriminate].
Defined.




Lemma focal_point_labels_witness :
  exists r,
    analyze_gaze (0.3, 0.3, 0.2, 0.2) (1.5, -0.5) 100 100 = Ok r /\
    In (a_focal_point r) focal_labels /\ a_focal_point r <> "out-of-frame".
Proof.
  eexists. split; [vm_compute; reflexivity |].
  exact (focal_point_labels
           (0.3, 0.3, 0.2, 0.2) (1.5, -0.5) 100 100 _ eq_refl).
Defined.

Lemma build_annotations_shared_bbox_witness :
  exists anns,
    build_annotations no_str_float (found 640 480) gf_item = Ok anns /\
    exists p width height b,
      found 640 480 gf_item = Ok (p, width, height) /\
      normalize_bbox no_str_float (item_bbox gf_item)
        (is_gazefollow (item_path gf_item)) width height = Ok b /\
      in_unit_box b /\
      Forall (fun a => bbox a = b) anns.
Proof.
  eexists. split; [vm_compute; reflexivity |].
  exact (build_annotations_shared_bbox no_str_float (found 640 480)
           gf_item _ eq_refl).
Defined.

Lemma gazefollow_no_gaze_primary_is_eye_witness :
  exists anns,
    build_annotations no_str_float (found 640 480) gf_item_no_gaze =
    Ok anns /\
    exists p width height eye a rest,
      found 640 480 gf_item_no_gaze = Ok (p, width, height) /\
      normalize_point no_str_float (item_eye gf_item_no_gaze) true
                      width height = Ok eye /\
      anns = a :: rest /\ gaze a = eye /\
      List.length rest = explicit_count gf_item_no_gaze.
Proof.
  eexists. split; [vm_compute; reflexivity |].
  exact (gazefollow_no_gaze_primary_is_eye no_str_float (found 640 480)
           gf_item_no_gaze _ eq_refl eq_refl eq_refl).
Defined.

Lemma find_image_file_first_match_witness :
  find_image_file posix_splitext posix_join vat_walk
                  "merged_images/vat" "0001.png" =
  Some "merged_images/vat/clip/0001.jpg" /\
  exists w1 root dirs fs1 file fs2 w2,
    vat_walk "merged_images/vat" =
    (w1 ++ (root, dirs, (fs1 ++ file :: fs2)%list) :: w2)%list /\
    "merged_images/vat/clip/0001.jpg" = posix_join root file /\
    matches posix_splitext "0001.png" file /\
    (forall x, In x fs1 -> ~ matches posix_splitext "0001.png" x) /\
    (forall r ds fs x,
       In (r, ds, fs) w1 -> In x fs -> ~ matches posix_splitext "0001.png" x).
Proof.
  assert (F : find_image_file posix_splitext posix_join vat_walk
                "merged_images/vat" "0001.png" =
              Some "merged_images/vat/clip/0001.jpg") by reflexivity.
  split; [exact F |].
  exact (find_image_file_first_match posix_splitext posix_join vat_walk
           "merged_images/vat" "0001.png" _ F).
Defined.

Lemma resolve_image_not_found_witness :
  is_gazefollow (item_path vat_item_missing) = false /\
  find_image_file posix_splitext posix_join vat_walk "merged_images/vat"
                  (posix_basename (item_path vat_item_missing)) = None /\
  find_image_file posix_splitext posix_join vat_walk "merged_images/vat"
                  "0003.jpg" = None /\
  resolve_image_on_disk posix_basename posix_splitext posix_join same_path
    vat_walk on_disk size_200_100 "merged_images/gazefollow"
    "merged_images/vat" vat_item_missing = Raise FileNotFoundError.
Proof.
  split; [reflexivity |]. split; [reflexivity |].
  exact (resolve_image_not_found posix_basename posix_splitext posix_join
           same_path vat_walk on_disk size_200_100
           "merged_images/gazefollow" "merged_images/vat" vat_item_missing
           eq_refl eq_refl eq_refl).
Defined.

Lemma vat_walk_on_disk (root file : string) :
  listed vat_walk "merged_images/vat" root file ->
  on_disk (posix_join root file) = true /\
  posix_join root file <> EmptyString.
Proof.
  intros (dirs & files & Hin & Hf).
  change (vat_walk "merged_images/vat")
    with [("merged_images/vat", ["clip"], ["readme.txt"]);
          ("merged_images/vat/clip", @nil string, ["0002.png"; "0001.jpg"])]
    in Hin.
  destruct Hin as [[= <- <- <-] | [[= <- <- <-] | []]].
  - destruct Hf as [<- | []]. split; [reflexivity | discriminate].
  - destruct Hf as [<- | [<- | []]]; (split; [reflexivity | discriminate]).
Defined.

Lemma available_item_is_found_witness :
  In vat_item_no_gaze
     (load_available_images posix_basename posix_join posix_relpath
        same_path vat_walk "merged_images/gazefollow" "merged_images/vat"
        (Some [vat_item_missing; vat_item_no_gaze])) /\
  exists root file,
    listed vat_walk "merged_images/vat" root file /\
    matches posix_splitext (posix_basename (item_path vat_item_no_gaze))
            file /\
    resolve_image_on_disk posix_basename posix_splitext posix_join same_path
      vat_walk on_disk size_200_100 "merged_images/gazefollow"
      "merged_images/vat" vat_item_no_gaze =
    ('(width, height) <- size_200_100 (posix_join root file) ;;
     Ok (posix_join root file, width, height)).
Proof.
  assert (I : In vat_item_no_gaze
                (load_available_images posix_basename posix_join
                   posix_relpath same_path vat_walk
                   "merged_images/gazefollow" "merged_images/vat"
                   (Some [vat_item_missing; vat_item_no_gaze])))
    by (left; reflexivity).
  split; [exact I |].
  exact (available_item_is_found posix_basename posix_splitext posix_join
           posix_relpath same_path same_path vat_walk on_disk size_200_100
           "merged_images/gazefollow" "merged_images/vat" _ _
           vat_walk_on_disk I eq_refl).
Defined.

Lemma main_posts_witness :
  exists log e,
    main no_str_float
      (resolve_image_on_disk posix_basename posix_splitext posix_join
         same_path vat_walk on_disk size_200_100
         "merged_images/gazefollow" "merged_images/vat")
      posix_basename posix_join posix_relpath same_path vat_walk accept_all
      "merged_images/gazefollow" "merged_images/vat"
      (Some [vat_item_no_gaze; vat_item_missing; vat_item_gaze])
      true 200 200 (Some 40%nat) = (log, e) /\
    e = Finished /\
    map fst log = seq 0 (List.length log) /\ List.length log = 2%nat.
Proof.
  do 2 eexists. split; [vm_compute; reflexivity |].
  split; [reflexivity |]. split; [| reflexivity].
  exact (proj1 (main_posts no_str_float
                  (resolve_image_on_disk posix_basename posix_splitext
                     posix_join same_path vat_walk on_disk size_200_100
                     "merged_images/gazefollow" "merged_images/vat")
                  posix_basename posix_join posix_relpath same_path
                  vat_walk accept_all
                  "merged_images/gazefollow" "merged_images/vat"
                  (Some [vat_item_no_gaze; vat_item_missing; vat_item_gaze])
                  true 200 200 (Some 40%nat) _ _ eq_refl)).
Defined.

Lemma main_refused_post_is_last_witness :
  exists log,
    main no_str_float (found 200 100)
      posix_basename posix_join posix_relpath same_path vat_walk
      refuse_second "merged_images/gazefollow" "merged_images/vat"
      (Some [vat_item_no_gaze; vat_item_gaze; vat_item_gaze])
      true 302 404 None = (log, PostFailed 1 500) /\
    List.length log = 2%nat /\ status_ok 500 = false.
Proof.
  eexists. split; [vm_compute; reflexivity |].
  split; [reflexivity |].
  exact (proj1 (main_refused_post_is_last no_str_float (found 200 100)
                  posix_basename posix_join posix_relpath same_path
                  vat_walk refuse_second
                  "merged_images/gazefollow" "merged_images/vat"
                  (Some [vat_item_no_gaze; vat_item_gaze; vat_item_gaze])
                  true 302 404 None _ 1%nat 500%Z eq_refl)).
Defined.

Lemma main_crash_witness :
  exists log,
    main no_str_float (found 200 100)
      posix_basename posix_join posix_relpath same_path vat_walk accept_all
      "merged_images/gazefollow" "merged_images/vat"
      (Some [vat_item_no_gaze; vat_flat_item; vat_item_gaze])
      true 200 200 None = (log, Crashed ZeroDivisionError) /\
    List.length log = 1%nat /\
    build_annotations no_str_float (found 200 100) vat_flat_item =
    Raise ZeroDivisionError.
Proof.
  eexists. split; [vm_compute; reflexivity |].
  split; [reflexivity |].
  destruct (main_crash no_str_float (found 200 100)
              posix_basename posix_join posix_relpath same_path
              vat_walk accept_all
              "merged_images/gazefollow" "merged_images/vat"
              (Some [vat_item_no_gaze; vat_flat_item; vat_item_gaze])
              true 200 200 None _ ZeroDivisionError eq_refl)
    as [(item & Hi & B) _].
  injection Hi as <-. exact B.
Defined.

(** * Properties on binary64 *)

Section Binary64.

Import PrimFloat SpecFloat FloatOps FloatAxioms.
Import B64.
#[local] Open Scope float_scope.
#[local] Set Warnings "-inexact-float".

Variable P : Platform.
Variable resolve_image_full_path : Item -> result (string * Z * Z).

Lemma bind_returns {A B : Type} (m : result A) (k : A -> result B) (b : B) :
  bind m k = Ok b -> exists a, m = Ok a /\ k a = Ok b.
Proof.
  destruct m as [a | e]; cbn [bind]; intro H; [eauto | discriminate].
Qed.

Lemma mapM_same_length {A B : Type} (f : A -> result B) (l : list A) :
  forall bs, mapM f l = Ok bs -> List.length bs = List.length l.
Proof.
  induction l as [| a l IH]; intros bs H.
  - now injection H as <-.
  - cbn [mapM] in H. apply bind_returns in H. destruct H as (b & _ & H).
    apply bind_returns in H. destruct H as (bs' & H' & [= <-]).
    simpl. f_equal. now apply IH.
Qed.

(** ** normalize_point and normalize_bbox *)

Lemma py_div_int_raises (x : float) (z : Z) (e : exn) :
  py_div_int x z = Raise e <-> dimension_error z = Some e.
Proof.
  unfold py_div_int, dimension_error, py_div.
  destruct (int_to_float z) as [d | e']; cbn [bind].
  - destruct (d =? 0); split; congruence.
  - split; congruence.
Qed.

Lemma py_div_int_returns (x : float) (z : Z) :
  dimension_error z = None -> exists q, py_div_int x z = Ok q.
Proof.
  unfold py_div_int, dimension_error, py_div.
  destruct (int_to_float z) as [d | e']; cbn [bind]; [| discriminate].
  destruct (d =? 0); [discriminate | eauto].
Qed.

Lemma dimension_error_cases (z : Z) :
  dimension_error z = None \/ exists e, dimension_error z = Some e.
Proof.
  destruct (dimension_error z) as [e |]; eauto.
Qed.

(** The pixel coordinates of a point: the first division that fails. *)
Lemma pixel_point_raises (x y : float) (width height : Z) (e : exn) :
  bind (if 0 <=? x then py_div_int x width else Ok (-0.05))
    (fun px_norm =>
       bind (if 0 <=? y then py_div_int y height else Ok (-0.05))
         (fun py_norm => Ok (px_norm, py_norm))) = Raise e <->
  ((0 <=? x) = true /\ dimension_error width = Some e) \/
  (((0 <=? x) = false \/ dimension_error width = None) /\
   (0 <=? y) = true /\ dimension_error height = Some e).
Proof.
  destruct (0 <=? x) eqn:X.
  - destruct (dimension_error_cases width) as [W | [e' W]].
    + destruct (py_div_int_returns x width W) as [q ->]. cbn [bind].
      destruct (0 <=? y) eqn:Y.
      * destruct (py_div_int y height) as [q' | e'] eqn:D; cbn [bind].
        -- split; [discriminate |].
           intros [[_ E] | (_ & _ & E)]; [congruence |].
           apply (proj2 (py_div_int_raises y height e)) in E. congruence.
        -- apply py_div_int_raises in D. split.
           ++ intros [= <-]. right. auto.
           ++ intros [[_ E] | (_ & _ & E)]; congruence.
      * cbn [bind]. split; [discriminate |].
        intros [[_ E] | (_ & E & _)]; congruence.
    + pose proof (proj2 (py_div_int_raises x width e') W) as ->.
      cbn [bind]. split.
      * intros [= <-]. left. auto.
      * intros [[_ E] | ([E | E] & _)]; congruence.
  - cbn [bind]. destruct (0 <=? y) eqn:Y.
    + destruct (py_div_int y height) as [q' | e'] eqn:D; cbn [bind].
      * split; [discriminate |].
        intros [[E _] | (_ & _ & E)]; [discriminate |].
        apply (proj2 (py_div_int_raises y height e)) in E. congruence.
      * apply py_div_int_raises in D. split.
        -- intros [= <-]. right. auto.
        -- intros [[E _] | (_ & _ & E)]; congruence.
    + cbn [bind]. split; [discriminate |].
      intros [[E _] | (_ & E & _)]; discriminate.
Qed.

Lemma firstn_two {A : Type} (l : list A) :
  (2 <= List.length l)%nat -> exists a b, firstn 2 l = [a; b].
Proof.
  destruct l as [| a [| b l]]; simpl; intro; try lia. eauto.
Qed.

Lemma chars_length (s : string) : List.length (chars s) = String.length s.
Proof.
  induction s as [| c s IH]; simpl; [| rewrite IH]; reflexivity.
Qed.

(** The two components of a point with a length of two or more. *)
Lemma point_components (items : list pyval) (is_normalized : bool)
    (width height : Z) (e : exn) :
  (2 <= List.length items)%nat ->
  match firstn 2 items with
  | [px; py] =>
      match bind (py_float P px)
              (fun px => bind (py_float P py) (fun py => Ok (px, py))) with
      | Raise _ => Ok default_point
      | Ok (px, py) =>
          if is_normalized then Ok (px, py)
          else
            bind (if 0 <=? px then py_div_int px width else Ok (-0.05))
              (fun px_norm =>
                 bind (if 0 <=? py then py_div_int py height else Ok (-0.05))
                   (fun py_norm => Ok (px_norm, py_norm)))
      end
  | _ => Raise ValueError
  end = Raise e <->
  is_normalized = false /\
  exists a b x y,
    firstn 2 items = [a; b] /\
    py_float P a = Ok x /\ py_float P b = Ok y /\
    (((0 <=? x) = true /\ dimension_error width = Some e) \/
     (((0 <=? x) = false \/ dimension_error width = None) /\
      (0 <=? y) = true /\ dimension_error height = Some e)).
Proof.
  intro L. destruct (firstn_two items L) as (a & b & ->).
  destruct (py_float P a) as [x | ea] eqn:A; cbn [bind].
  - destruct (py_float P b) as [y | eb] eqn:B; cbn [bind].
    + destruct is_normalized.
      * split; [discriminate | intros [[=] _]].
      * rewrite pixel_point_raises. split.
        -- intro H. split; [reflexivity |]. now exists a, b, x, y.
        -- intros (_ & a' & b' & x' & y' & [= <- <-] & A' & B' & H).
           congruence.
    + split; [discriminate |].
      intros (_ & a' & b' & x' & y' & [= <- <-] & A' & B' & H). congruence.
  - split; [discriminate |].
    intros (_ & a' & b' & x' & y' & [= <- <-] & A' & B' & H). congruence.
Qed.

(** X4: for every JSON value in the place of a point, [normalize_point]
    raises exactly in three situations: the value is a truthy scalar,
    which has no length ([TypeError]); it is a [dict] of two keys or more,
    which cannot be sliced; or it is a [list] or [str] of two entries or
    more in pixel space whose first two entries convert, and a coordinate
    that is not negative has to be divided by an image dimension that is
    0 ([ZeroDivisionError]) or beyond the float range
    ([OverflowError]). *)
Theorem normalize_point_raises_binary64 (pt : pyval) (is_normalized : bool)
    (width height : Z) (e : exn) :
  normalize_point P pt is_normalized width height = Raise e <->
  (truthy_scalar pt /\ e = TypeError) \/
  (exists l, pt = PObj l /\ (2 <= List.length l)%nat /\
             e = dict_slice_error P) \/
  (is_normalized = false /\
   exists a b x y,
     entries 2 pt = Some [a; b] /\
     py_float P a = Ok x /\ py_float P b = Ok y /\
     (((0 <=? x) = true /\ dimension_error width = Some e) \/
      (((0 <=? x) = false \/ dimension_error width = None) /\
       (0 <=? y) = true /\ dimension_error height = Some e))).
Proof.
  unfold normalize_point.
  destruct pt as [| b | z | x | s | l | l]; cbn [py_not py_len py_slice bind].
  - split; [discriminate |].
    intros [[[] _] | [(l & [=] & _) | (_ & a & b & x & y & [=] & _)]].
  - destruct b; cbn [negb bind].
    + split; [intros [= <-]; left; now split |].
      intros [[_ ->] | [(l & [=] & _) | (_ & a & c & x & y & [=] & _)]].
      reflexivity.
    + split; [discriminate |].
      intros [[[=] _] | [(l & [=] & _) | (_ & a & c & x & y & [=] & _)]].
  - destruct (Z.eqb_spec z 0) as [-> | NZ]; cbn [bind].
    + split; [discriminate |].
      intros [[[] _] | [(l & [=] & _) | (_ & a & c & x & y & [=] & _)]].
      reflexivity.
    + split; [intros [= <-]; left; now split |].
      intros [[_ ->] | [(l & [=] & _) | (_ & a & c & x & y & [=] & _)]].
      reflexivity.
  - destruct (x =? 0) eqn:X; cbn [bind].
    + split; [discriminate |].
      intros [[T _] | [(l & [=] & _) | (_ & a & c & x' & y & [=] & _)]].
      simpl in T. congruence.
    + split; [intros [= <-]; left; now split |].
      intros [[_ ->] | [(l & [=] & _) | (_ & a & c & x' & y & [=] & _)]].
      reflexivity.
  - destruct (Nat.eqb_spec (String.length s) 0) as [Z0 | NZ].
    + split; [discriminate |].
      intros [[[] _] | [(l & [=] & _) | (_ & a & c & x & y & E & _)]].
      cbn [entries] in E. rewrite Z0 in E. discriminate.
    + destruct (Nat.ltb_spec (String.length s) 2) as [S2 | S2].
      * split; [discriminate |].
        intros [[[] _] | [(l & [=] & _) | (_ & a & c & x & y & E & _)]].
        cbn [entries] in E.
        destruct (Nat.leb_spec 2 (String.length s)); [lia |].
        discriminate.
      * rewrite <- chars_length in S2.
        rewrite (point_components (chars s) is_normalized width height e S2).
        unfold entries. rewrite chars_length in S2.
        destruct (Nat.leb_spec 2 (String.length s)) as [_ | ?]; [| lia].
        split.
        -- intros (N & a & c & x & y & E & H). right. right.
           split; [exact N |]. exists a, c, x, y. rewrite E. auto.
        -- intros [[[] _] | [(l & [=] & _) | (N & a & c & x & y & [= E] & H)]].
           split; [exact N |]. now exists a, c, x, y.
  - destruct (Nat.eqb_spec (List.length l) 0) as [Z0 | NZ].
    + split; [discriminate |].
      intros [[[] _] | [(l' & [=] & _) | (_ & a & c & x & y & E & _)]].
      cbn [entries] in E. rewrite Z0 in E. discriminate.
    + destruct (Nat.ltb_spec (List.length l) 2) as [S2 | S2].
      * split; [discriminate |].
        intros [[[] _] | [(l' & [=] & _) | (_ & a & c & x & y & E & _)]].
        cbn [entries] in E.
        destruct (Nat.leb_spec 2 (List.length l)); [lia |].
        discriminate.
      * rewrite (point_components l is_normalized width height e S2).
        unfold entries.
        destruct (Nat.leb_spec 2 (List.length l)) as [_ | ?]; [| lia].
        split.
        -- intros (N & a & c & x & y & E & H). right. right.
           split; [exact N |]. exists a, c, x, y. rewrite E. auto.
        -- intros [[[] _] | [(l' & [=] & _) | (N & a & c & x & y & [= E] & H)]].
           split; [exact N |]. now exists a, c, x, y.
  - destruct (Nat.eqb_spec (List.length l) 0) as [Z0 | NZ].
    + split; [discriminate |].
      intros [[[] _] | [(l' & [= <-] & L & _) | (_ & a & c & x & y & [=] & _)]].
      lia.
    + destruct (Nat.ltb_spec (List.length l) 2) as [S2 | S2].
      * split; [discriminate |].
        intros [[[] _] | [(l' & [= <-] & L & _) | (_ & a & c & x & y & [=] & _)]].
        lia.
      * cbn [bind]. split.
        -- intros [= <-]. right. left. now exists l.
        -- intros [[[] _] | [(l' & _ & _ & ->) | (_ & a & c & x & y & [=] & _)]].
           reflexivity.
Qed.

(** The pixel coordinates of a box: the width is tried first. *)
Lemma pixel_box_raises (x y w h : float) (width height : Z) (e : exn) :
  bind (bind (py_div_int x width)
          (fun x => bind (py_div_int y height)
             (fun y => bind (py_div_int w width)
                (fun w => bind (py_div_int h height)
                   (fun h => Ok (x, y, w, h))))))
    (fun '(x, y, w, h) => Ok (clamp01 x, clamp01 y, clamp01 w, clamp01 h))
  = Raise e <->
  dimension_error width = Some e \/
  (dimension_error width = None /\ dimension_error height = Some e).
Proof.
  destruct (dimension_error_cases width) as [W | [e' W]].
  - destruct (py_div_int_returns x width W) as [qx ->].
    destruct (py_div_int_returns w width W) as [qw ->]. cbn [bind].
    destruct (dimension_error_cases height) as [H | [e' H]].
    + destruct (py_div_int_returns y height H) as [qy ->].
      destruct (py_div_int_returns h height H) as [qh ->]. cbn [bind].
      split; [discriminate | intros [E | [_ E]]; congruence].
    + pose proof (proj2 (py_div_int_raises y height e') H) as ->.
      cbn [bind]. split.
      * intros [= <-]. auto.
      * intros [E | [_ E]]; congruence.
  - pose proof (proj2 (py_div_int_raises x width e') W) as ->.
    cbn [bind]. split.
    + intros [= <-]. auto.
    + intros [E | [E _]]; congruence.
Qed.

Lemma firstn_four {A : Type} (l : list A) :
  (4 <= List.length l)%nat -> exists a b c d, firstn 4 l = [a; b; c; d].
Proof.
  destruct l as [| a [| b [| c [| d l]]]]; simpl; intro; try lia.
  now exists a, b, c, d.
Qed.

(** The four components of a box with a length of four or more. *)
Lemma box_components (l : list pyval) (is_normalized : bool)
    (width height : Z) (e : exn) :
  (4 <= List.length l)%nat ->
  bind (mapM (py_float P) (firstn 4 l))
    (fun vs =>
       match vs with
       | [x; y; w; h] =>
           match rectify_bbox x y (Some w) (Some h) with
           | (x, y, Some w, Some h) =>
               bind
                 (if negb is_normalized then
                    bind (py_div_int x width)
                      (fun x => bind (py_div_int y height)
                         (fun y => bind (py_div_int w width)
                            (fun w => bind (py_div_int h height)
                               (fun h => Ok (x, y, w, h)))))
                  else Ok (x, y, w, h))
                 (fun '(x, y, w, h) =>
                    Ok (clamp01 x, clamp01 y, clamp01 w, clamp01 h))
           | _ => Raise TypeError
           end
       | _ => Raise ValueError
       end) = Raise e <->
  mapM (py_float P) (firstn 4 l) = Raise e \/
  (is_normalized = false /\
   (exists vs, mapM (py_float P) (firstn 4 l) = Ok vs) /\
   (dimension_error width = Some e \/
    (dimension_error width = None /\ dimension_error height = Some e))).
Proof.
  intro L. destruct (firstn_four l L) as (a & b & c & d & ->).
  destruct (mapM (py_float P) [a; b; c; d]) as [vs | e'] eqn:M; cbn [bind].
  - pose proof (mapM_same_length _ _ _ M) as Lv.
    destruct vs as [| x [| y [| w [| h [| ? ?]]]]]; try discriminate Lv.
    unfold rectify_bbox.
    destruct (w <? 0), (h <? 0), is_normalized; cbn [negb];
      try rewrite pixel_box_raises; cbn [bind];
      (split;
       [ intro H; try discriminate H; right; repeat split; eauto
       | intros [H | (N & _ & H)]; congruence || assumption ]).
  - split; [intros [= <-]; now left |].
    intros [H | (_ & [vs H] & _)]; congruence.
Qed.

(** X5: for every JSON value in the place of a box, [normalize_bbox]
    raises exactly in four situations: the value is a truthy scalar, which
    has no length ([TypeError]); it is a [dict] of four keys or more,
    which cannot be sliced; it is a [list] or [str] of four entries or
    more and [float()] rejects one of the first four; or those convert,
    the box is in pixel space and the image width (tried first) or height
    is 0 ([ZeroDivisionError]) or beyond the float range
    ([OverflowError]). *)
Theorem normalize_bbox_raises_binary64 (bbox : pyval) (is_normalized : bool)
    (width height : Z) (e : exn) :
  normalize_bbox P bbox is_normalized width height = Raise e <->
  (truthy_scalar bbox /\ e = TypeError) \/
  (exists l, bbox = PObj l /\ (4 <= List.length l)%nat /\
             e = dict_slice_error P) \/
  (exists items,
     entries 4 bbox = Some items /\
     (mapM (py_float P) items = Raise e \/
      (is_normalized = false /\
       (exists vs, mapM (py_float P) items = Ok vs) /\
       (dimension_error width = Some e \/
        (dimension_error width = None /\
         dimension_error height = Some e))))).
Proof.
  unfold normalize_bbox.
  destruct bbox as [| b | z | x | s | l | l];
    cbn [py_not py_len py_slice bind].
  - split; [discriminate |].
    intros [[[] _] | [(l & [=] & _) | (items & [=] & _)]].
  - destruct b; cbn [negb bind].
    + split; [intros [= <-]; left; now split |].
      intros [[_ ->] | [(l & [=] & _) | (items & [=] & _)]]. reflexivity.
    + split; [discriminate |].
      intros [[[=] _] | [(l & [=] & _) | (items & [=] & _)]].
  - destruct (Z.eqb_spec z 0) as [-> | NZ]; cbn [bind].
    + split; [discriminate |].
      intros [[[] _] | [(l & [=] & _) | (items & [=] & _)]]. reflexivity.
    + split; [intros [= <-]; left; now split |].
      intros [[_ ->] | [(l & [=] & _) | (items & [=] & _)]]. reflexivity.
  - destruct (x =? 0) eqn:X; cbn [bind].
    + split; [discriminate |].
      intros [[T _] | [(l & [=] & _) | (items & [=] & _)]].
      simpl in T. congruence.
    + split; [intros [= <-]; left; now split |].
      intros [[_ ->] | [(l & [=] & _) | (items & [=] & _)]]. reflexivity.
  - destruct (Nat.eqb_spec (String.length s) 0) as [Z0 | NZ].
    + split; [discriminate |].
      intros [[[] _] | [(l & [=] & _) | (items & E & _)]].
      cbn [entries] in E. rewrite Z0 in E. discriminate.
    + destruct (Nat.ltb_spec (String.length s) 4) as [S4 | S4].
      * split; [discriminate |].
        intros [[[] _] | [(l & [=] & _) | (items & E & _)]].
        cbn [entries] in E.
        destruct (Nat.leb_spec 4 (String.length s)); [lia |].
        discriminate.
      * rewrite <- chars_length in S4.
        rewrite (box_components (chars s) is_normalized width height e S4).
        unfold entries. rewrite chars_length in S4.
        destruct (Nat.leb_spec 4 (String.length s)) as [_ | ?]; [| lia].
        split.
        -- intro H. right. right. now exists (firstn 4 (chars s)).
        -- intros [[[] _] | [(l & [=] & _) | (items & [= <-] & H)]].
           exact H.
  - destruct (Nat.eqb_spec (List.length l) 0) as [Z0 | NZ].
    + split; [discriminate |].
      intros [[[] _] | [(l' & [=] & _) | (items & E & _)]].
      cbn [entries] in E. rewrite Z0 in E. discriminate.
    + destruct (Nat.ltb_spec (List.length l) 4) as [S4 | S4].
      * split; [discriminate |].
        intros [[[] _] | [(l' & [=] & _) | (items & E & _)]].
        cbn [entries] in E.
        destruct (Nat.leb_spec 4 (List.length l)); [lia |].
        discriminate.
      * rewrite (box_components l is_normalized width height e S4).
        unfold entries.
        destruct (Nat.leb_spec 4 (List.length l)) as [_ | ?]; [| lia].
        split.
        -- intro H. right. right. now exists (firstn 4 l).
        -- intros [[[] _] | [(l' & [=] & _) | (items & [= <-] & H)]].
           exact H.
  - destruct (Nat.eqb_spec (List.length l) 0) as [Z0 | NZ].
    + split; [discriminate |].
      intros [[[] _] | [(l' & [= <-] & L & _) | (items & [=] & _)]].
      lia.
    + destruct (Nat.ltb_spec (List.length l) 4) as [S4 | S4].
      * split; [discriminate |].
        intros [[[] _] | [(l' & [= <-] & L & _) | (items & [=] & _)]].
        lia.
      * cbn [bind]. split.
        -- intros [= <-]. right. left. now exists l.
        -- intros [[[] _] | [(l' & _ & _ & ->) | (items & [=] & _)]].
           reflexivity.
Qed.

(** ** analyze_gaze *)

(** What a run of the classifier that returns has computed. *)
Lemma analyze_gaze_computed (b : BBox) (g : Point) (width height : Z)
    (r : Analysis) :
  analyze_gaze P b g width height = Ok r ->
  exists w h d fs,
    int_to_float width = Ok w /\ int_to_float height = Ok h /\
    pixel_distance P (gaze_px g w h) (face_center_px b w h) = Ok (Real d) /\
    face_size_px P b w h = Ok (Real fs) /\
    (fst (face_sides_px b w h) / 0.2 =? 0) = false /\
    let p := gaze_px g w h in
    let out :=
      (fst p <? 0) || gt_int (fst p) width || (snd p <? 0)
      || gt_int (snd p) height in
    let side := py_min (fst (face_sides_px b w h)) (snd (face_sides_px b w h)) in
    a_target_type r =
      (if out then "out-of-frame target"
       else if d <? side * 0.3 then "Eye-contact" else "in-frame target") /\
    a_farther_closer r =
      (if fs * 2 <? d then "farther"
       else if d <? fs * 0.5 then "closer" else "equal") /\
    a_scale r = format_2f (d / (fst (face_sides_px b w h) / 0.2)).
Proof.
  destruct b as [[[bx by_] bw] bh], g as [gx gy].
  unfold analyze_gaze, pixel_distance, face_size_px, face_sides_px,
    face_center_px, gaze_px.
  cbn [fst snd].
  intro H.
  apply bind_returns in H. destruct H as (w & Hw & H).
  apply bind_returns in H. destruct H as (h & Hh & H).
  apply bind_returns in H. destruct H as (tt & Htt & H).
  apply bind_returns in H. destruct H as (a & Ha & H).
  apply bind_returns in H. destruct H as (c & Hc & H).
  apply bind_returns in H. destruct H as (dd & Hd & H).
  apply bind_returns in H. destruct H as (ff & Hf & H).
  apply bind_returns in H. destruct H as ([d fs] & Hc' & H).
  destruct dd as [d' |]; [| discriminate].
  destruct ff as [fs' |]; [| discriminate].
  injection Hc' as -> ->.
  apply bind_returns in H. destruct H as (ppm & Hp & H).
  apply bind_returns in H. destruct H as (m & Hm & H).
  exists w, h, d, fs.
  rewrite Ha, Hc. cbn [bind]. rewrite Hd, Hf.
  change (0 <? 0.2) with true in Hp. cbv beta iota in Hp.
  unfold py_div in Hp, Hm.
  change (0.2 =? 0) with false in Hp. cbv beta iota in Hp.
  injection Hp as <-.
  destruct (bw * w / 0.2 =? 0) eqn:Z; [discriminate |].
  injection Hm as <-.
  injection H as <-. cbn [a_target_type a_farther_closer a_scale].
  repeat split; try reflexivity; try assumption.
  destruct ((gx * w <? 0) || gt_int (gx * w) width || (gy * h <? 0)
            || gt_int (gy * h) height).
  - now injection Htt as <-.
  - rewrite Ha, Hc in Htt. cbn [bind] in Htt. rewrite Hd in Htt.
    cbn [bind] in Htt.
    destruct (d <? py_min (bw * w) (bh * h) * 0.3); now injection Htt as <-.
Qed.

(** The converse: the computations that make the classifier return. *)
Lemma analyze_gaze_returns_when (b : BBox) (g : Point) (width height : Z)
    (w h d fs : float) :
  int_to_float width = Ok w -> int_to_float height = Ok h ->
  pixel_distance P (gaze_px g w h) (face_center_px b w h) = Ok (Real d) ->
  face_size_px P b w h = Ok (Real fs) ->
  (fst (face_sides_px b w h) / 0.2 =? 0) = false ->
  exists r, analyze_gaze P b g width height = Ok r.
Proof.
  destruct b as [[[bx by_] bw] bh], g as [gx gy].
  unfold analyze_gaze, pixel_distance, face_size_px, face_sides_px,
    face_center_px, gaze_px.
  cbn [fst snd].
  intros -> -> Hd Hf Z. cbn [bind].
  apply bind_returns in Hd. destruct Hd as (a & Ha & Hd).
  apply bind_returns in Hd. destruct Hd as (c & Hc & Hd).
  rewrite Ha, Hc. cbn [bind]. rewrite Hd, Hf. cbn [bind].
  change (0 <? 0.2) with true. cbv beta iota.
  unfold py_div. change (0.2 =? 0) with false. cbv beta iota. cbn [bind].
  rewrite Z. cbn [bind].
  destruct ((gx * w <? 0) || gt_int (gx * w) width || (gy * h <? 0)
            || gt_int (gy * h) height); cbn [bind].
  - eauto.
  - destruct (d <? py_min (bw * w) (bh * h) * 0.3); cbn [bind]; eauto.
Qed.




(** X9: on every run of [analyze_gaze] that returns, with the distance
    [d] from the gaze to the face centre and the face size [s], the root
    of face width times face height, as binary64 numbers: the label is
    ['farther'] exactly when [d > s * 2]; otherwise ['closer'] exactly
    when [d < s * 0.5]; otherwise ['equal']. *)
Theorem farther_closer_binary64 (b : BBox) (g : Point)
    (width height : Z) (r : Analysis) :
  analyze_gaze P b g width height = Ok r ->
  exists w h d s,
    int_to_float width = Ok w /\ int_to_float height = Ok h /\
    pixel_distance P (gaze_px g w h) (face_center_px b w h) = Ok (Real d) /\
    face_size_px P b w h = Ok (Real s) /\
    let far := (s * 2 <? d) = true in
    let close := (d <? s * 0.5) = true in
    (a_farther_closer r = "farther" <-> far) /\
    (a_farther_closer r = "closer" <-> ~ far /\ close) /\
    (a_farther_closer r = "equal" <-> ~ far /\ ~ close).
Proof.
  intro H. apply analyze_gaze_computed in H.
  destruct H as (w & h & d & s & Hw & Hh & Hd & Hs & _ & _ & Hf & _).
  exists w, h, d, s. repeat (split; [assumption |]).
  cbv zeta. rewrite Hf.
  destruct (s * 2 <? d); destruct (d <? s * 0.5);
    repeat split; intros; try discriminate; try reflexivity;
    intuition discriminate.
Qed.

(** X14: [analyze_gaze] returns exactly when the image width and height
    convert to floats, the distance from the gaze to the face centre and
    the face size are floats (no power raises and no root is complex) and
    the face width in pixels over 0.2 is not zero. *)
Theorem analyze_gaze_returns_binary64 (b : BBox) (g : Point)
    (width height : Z) :
  (exists r, analyze_gaze P b g width height = Ok r) <->
  (exists w h d s,
     int_to_float width = Ok w /\ int_to_float height = Ok h /\
     pixel_distance P (gaze_px g w h) (face_center_px b w h) = Ok (Real d) /\
     face_size_px P b w h = Ok (Real s) /\
     (fst (face_sides_px b w h) / 0.2 =? 0) = false).
Proof.
  split.
  - intros [r H]. apply analyze_gaze_computed in H.
    destruct H as (w & h & d & s & Hw & Hh & Hd & Hs & Z & _).
    now exists w, h, d, s.
  - intros (w & h & d & s & Hw & Hh & Hd & Hs & Z).
    now apply analyze_gaze_returns_when with w h d s.
Qed.

(** *** Scale *)

Lemma finite_compare_refl (s : bool) (m : positive) (e : Z) :
  SFeqb (S754_finite s m e) (S754_finite s m e) = true.
Proof.
  unfold SFeqb, SFcompare. rewrite Z.compare_refl.
  change (Pos.compare_cont Eq m m) with (m ?= m)%positive.
  rewrite Pos.compare_refl. now destruct s.
Qed.

(** [is_finite] on the specification of a float. *)
Lemma is_finite_spec (v : float) :
  is_finite v =
  match Prim2SF v with
  | S754_zero _ | S754_finite _ _ _ => true
  | _ => false
  end.
Proof.
  unfold is_finite, is_nan, is_infinity.
  rewrite !eqb_spec, abs_spec.
  change (Prim2SF infinity) with (S754_infinity false).
  destruct (Prim2SF v) as [s | s | | s m e].
  - reflexivity.
  - now destruct s.
  - reflexivity.
  - cbn [SFabs]. rewrite finite_compare_refl. reflexivity.
Qed.

Lemma append_assoc3 (a b c : string) : (a ++ b) ++ c = a ++ (b ++ c).
Proof.
  induction a as [| x a IH]; simpl; [| rewrite IH]; reflexivity.
Qed.

(** The shape of [f"{v:.2f}"]: a point and two digits for a finite [v],
    the name of the value for the others. *)
Lemma format_2f_shape (v : float) :
  (is_finite v = true /\ two_decimals (format_2f v)) \/
  (is_finite v = false /\ not_finite_name (format_2f v)).
Proof.
  rewrite is_finite_spec. unfold format_2f, not_finite_name.
  destruct (Prim2SF v) as [s | s | | s m e].
  - left. split; [reflexivity |].
    exists ((if s then "-" else EmptyString) ++ "0"), 0%Z, 0%Z.
    split; [now destruct s | lia].
  - right. split; [reflexivity |]. destruct s; auto.
  - right. split; [reflexivity |]. auto.
  - left. split; [reflexivity |]. cbv zeta.
    set (n := round_half_even (100 * Z.pos m) e).
    exists ((if s then "-" else EmptyString)
            ++ NilZero.string_of_uint (N.to_uint (Z.to_N (n / 100)))),
      ((n mod 100) / 10)%Z, (n mod 10)%Z.
    split; [now rewrite append_assoc3 |].
    pose proof (Z.mod_pos_bound n 100 ltac:(lia)).
    pose proof (Z.mod_pos_bound n 10 ltac:(lia)).
    split; [| lia].
    split; [apply Z.div_pos; lia | apply Z.lt_succ_r, Z.div_lt_upper_bound; lia].
Qed.

(** X15: on every run of [analyze_gaze] that returns, the scale is the
    distance from the gaze to the face centre over the pixels per metre
    ([faceW / 0.2]), a binary64 number, printed with two decimals: it
    ends with a point and two digits when that number is finite, and it
    is ['nan'], ['inf'] or ['-inf'] when it is not. *)
Theorem analyze_gaze_scale_binary64 (b : BBox) (g : Point)
    (width height : Z) (r : Analysis) :
  analyze_gaze P b g width height = Ok r ->
  exists w h d,
    int_to_float width = Ok w /\ int_to_float height = Ok h /\
    pixel_distance P (gaze_px g w h) (face_center_px b w h) = Ok (Real d) /\
    let metres := d / (fst (face_sides_px b w h) / 0.2) in
    a_scale r = format_2f metres /\
    (is_finite metres = true -> two_decimals (a_scale r)) /\
    (is_finite metres = false -> not_finite_name (a_scale r)).
Proof.
  intro H. apply analyze_gaze_computed in H.
  destruct H as (w & h & d & fs & Hw & Hh & Hd & _ & _ & _ & _ & Hs).
  exists w, h, d. repeat (split; [assumption |]).
  cbv zeta. rewrite Hs.
  destruct (format_2f_shape (d / (fst (face_sides_px b w h) / 0.2)))
    as [[F S] | [F S]]; rewrite F; split; intro; congruence || assumption.
Qed.

(** ** build_annotations *)







End Binary64.

(** ** Instances on binary64 *)

Section Binary64Instances.

Import PrimFloat.
Import B64.
#[local] Open Scope float_scope.
#[local] Set Warnings "-inexact-float".



(** The box [[0, 0.05, 0.2, 0.2]] has size 20 and its centre at (10, 15);
    the gaze (0.1, 0.55) is at pixel (10, 55.00000000000001), at
    40.00000000000001 from the centre: above twice the size. *)
Lemma farther_closer_binary64_witness :
  exists r,
    analyze_gaze rounded (0, 0.05, 0.2, 0.2) (0.1, 0.55) 100 100 = Ok r /\
    a_farther_closer r = "farther" /\
    exists w h d s,
      pixel_distance rounded (gaze_px (0.1, 0.55) w h)
        (face_center_px (0, 0.05, 0.2, 0.2) w h) = Ok (Real d) /\
      face_size_px rounded (0, 0.05, 0.2, 0.2) w h = Ok (Real s) /\
      (40 <? d) = true /\ s * 2 = 40 /\
      (a_farther_closer r = "farther" <-> (s * 2 <? d) = true).
Proof.
  eexists. split; [vm_compute; reflexivity |]. split; [reflexivity |].
  destruct (farther_closer_binary64 rounded (0, 0.05, 0.2, 0.2) (0.1, 0.55)
              100 100 _ eq_refl)
    as (w & h & d & s & Hw & Hh & Hd & Hs & E & _).
  exists w, h, d, s. repeat (split; [assumption |]).
  injection Hw as <-. injection Hh as <-. injection Hd as <-.
  injection Hs as <-.
  split; [reflexivity |]. split; [reflexivity |]. exact E.
Defined.

(** A gaze 5.000000000000007 pixels from the centre of a face 40 pixels
    wide, 200 pixels per metre: 0.025000000000000036 metres, printed
    ['0.03']. *)
Lemma analyze_gaze_scale_binary64_witness :
  exists r,
    analyze_gaze rounded (0.3, 0.3, 0.4, 0.4) (0.55, 0.5) 100 100 = Ok r /\
    a_scale r = "0.03" /\ two_decimals (a_scale r).
Proof.
  eexists. split; [vm_compute; reflexivity |]. split; [reflexivity |].
  destruct (analyze_gaze_scale_binary64 rounded (0.3, 0.3, 0.4, 0.4)
              (0.55, 0.5) 100 100 _ eq_refl)
    as (w & h & d & Hw & Hh & Hd & _ & Fin & _).
  apply Fin.
  injection Hw as <-. injection Hh as <-. injection Hd as <-. reflexivity.
Defined.

(** A gaze that is not finite (JSON [Infinity] or [NaN] on the GazeFollow
    path) is classified, and its scale is the name of the value. *)
Example scale_of_infinite_gaze :
  exists r,
    analyze_gaze rounded (0.3, 0.3, 0.2, 0.2) (infinity, 0.5) 100 100 = Ok r /\
    a_scale r = "inf" /\ a_target_type r = "out-of-frame target".
Proof.
  eexists. split; [vm_compute; reflexivity |]. split; reflexivity.
Qed.

(** A gaze far outside the image: its squared distance is beyond the
    float range, and [** 2] raises. *)
Example analyze_gaze_overflow :
  analyze_gaze rounded (0, 0, 0.1, 0.1) (0x1p+700, 0.5) 100 100 =
  Raise OverflowError.
Proof.
  vm_compute. reflexivity.
Qed.

(** The image dimensions a float cannot be divided by. *)
Example dimension_errors :
  dimension_error 0 = Some ZeroDivisionError /\
  dimension_error (10 ^ 400) = Some OverflowError /\
  dimension_error 640 = None.
Proof.
  repeat split; vm_compute; reflexivity.
Qed.

(** A bare number in the place of a point or of a box, and an [int]
    beyond the float range in a box. *)
Example normalize_scalar :
  normalize_point rounded (PInt 5) true 640 480 = Raise TypeError /\
  normalize_bbox rounded (PInt 5) true 640 480 = Raise TypeError /\
  normalize_bbox rounded
    (PList [PInt (10 ^ 400); PInt 1; PInt 1; PInt 1]) true 640 480 =
  Raise OverflowError.
Proof.
  repeat split; vm_compute; reflexivity.
Qed.

End Binary64Instances.
